(** * LibreView API client: a shallow embedding of [libreview_api.py]

    The client of [libreview_api.py] is a Python object with two mutable
    fields ([token] and [account_id]) that talks to a remote service through
    a [requests.Session].  The embedding keeps that shape:

    - Python values that come out of [response.json()] are the inductive
      type [json]; the Python operators the client applies to them ([in],
      subscripting, [.get], truth testing, [isinstance(_, list)], [str])
      are functions on [json] that raise what Python raises;
    - HTTP headers, a [Dict[str, str]], are a [gmap string string];
    - the methods of [LibreViewAPI] run in a small monad that threads the
      client object and the remote service, may raise, and records every
      call made on the session;
    - [hashlib.sha256] is SHA-256 as in FIPS 180-4, on 32-bit words held
      in [Z].

    Python [str] values are Rocq strings read as the UTF-8 bytes of the
    text, so [s.encode('utf-8')] is the list of the bytes of [s].
    The calls on [logger] are left out: no method reads the log back. *)

From Stdlib Require Import ZArith String Ascii List Bool Lia DecimalString.
From stdpp Require Import gmap strings.

Local Open Scope string_scope.
Local Open Scope Z_scope.
Local Set Warnings "-register-all".

(** ** SHA-256 ([hashlib.sha256(...).hexdigest()]) *)

Module SHA256.

Definition wrap32 (x : Z) : Z := Z.land x 0xFFFFFFFF.

Definition add32 (x y : Z) : Z := wrap32 (x + y).

Definition rotr (n x : Z) : Z :=
  wrap32 (Z.lor (Z.shiftr x n) (Z.shiftl x (32 - n))).

Definition shr (n x : Z) : Z := Z.shiftr x n.

Definition Ch (x y z : Z) : Z :=
  Z.lxor (Z.land x y) (Z.land (Z.lxor x 0xFFFFFFFF) z).

Definition Maj (x y z : Z) : Z :=
  Z.lxor (Z.lxor (Z.land x y) (Z.land x z)) (Z.land y z).

Definition Sigma0 (x : Z) : Z :=
  Z.lxor (Z.lxor (rotr 2 x) (rotr 13 x)) (rotr 22 x).

Definition Sigma1 (x : Z) : Z :=
  Z.lxor (Z.lxor (rotr 6 x) (rotr 11 x)) (rotr 25 x).

Definition sigma0 (x : Z) : Z :=
  Z.lxor (Z.lxor (rotr 7 x) (rotr 18 x)) (shr 3 x).

Definition sigma1 (x : Z) : Z :=
  Z.lxor (Z.lxor (rotr 17 x) (rotr 19 x)) (shr 10 x).

(** The constants are not tabulated: they are computed as the standard
    defines them, from the first 64 primes. *)
Definition is_prime (n : Z) : bool :=
  (1 <? n) &&
  forallb (fun d => (n <? d * d) || negb (n mod d =? 0))
          (map Z.of_nat (seq 2 (Z.to_nat n - 2))).

Definition primes : list Z :=
  List.filter is_prime (map Z.of_nat (seq 2 310)).

(** Integer cube root, one bit at a time from bit [b - 1] down. *)
Fixpoint cbrt_bits (b : nat) (n r : Z) : Z :=
  match b with
  | O => r
  | S b' =>
      let r' := r + 2 ^ Z.of_nat b' in
      cbrt_bits b' n (if r' * r' * r' <=? n then r' else r)
  end.

Definition cbrt (n : Z) : Z := cbrt_bits 40 n 0.

(** First 32 bits of the fractional part of the cube root of each prime. *)
Definition K : list Z :=
  map (fun p => wrap32 (cbrt (p * 2 ^ 96))) primes.

(** First 32 bits of the fractional part of the square root of each of the
    first 8 primes. *)
Definition H0 : list Z :=
  map (fun p => wrap32 (Z.sqrt (p * 2 ^ 64))) (firstn 8 primes).

(** Big-endian bytes of a [n]-byte number, most significant first. *)
Fixpoint be_bytes (n : nat) (x : Z) : list Z :=
  match n with
  | O => []
  | S n' => Z.land (Z.shiftr x (8 * Z.of_nat n')) 0xFF :: be_bytes n' x
  end.

(** The message followed by the bit 1, zero bits up to 56 modulo 64
    bytes, and the length of the message in bits on 8 bytes. *)
Definition pad (msg : list Z) : list Z :=
  let len := Z.of_nat (length msg) in
  let zeros := Z.to_nat ((55 - len) mod 64) in
  (msg ++ 0x80 :: repeat 0 zeros) ++ be_bytes 8 (8 * len).

Fixpoint words_of_bytes (bs : list Z) : list Z :=
  match bs with
  | a :: b :: c :: d :: rest =>
      Z.lor (Z.shiftl a 24) (Z.lor (Z.shiftl b 16) (Z.lor (Z.shiftl c 8) d))
      :: words_of_bytes rest
  | _ => []
  end.

(** The message schedule, newest word first: [extend n rev_w] adds [n]
    words to the reversed schedule [rev_w]. *)
Fixpoint extend (n : nat) (rev_w : list Z) : list Z :=
  match n with
  | O => rev_w
  | S n' =>
      let w := add32 (add32 (sigma1 (nth 1 rev_w 0)) (nth 6 rev_w 0))
                     (add32 (sigma0 (nth 14 rev_w 0)) (nth 15 rev_w 0)) in
      extend n' (w :: rev_w)
  end.

Definition schedule (block : list Z) : list Z :=
  rev (extend 48 (rev block)).

Definition round (st : list Z) (kw : Z * Z) : list Z :=
  match st with
  | [a; b; c; d; e; f; g; h] =>
      let t1 := add32 (add32 (add32 h (Sigma1 e)) (add32 (Ch e f g) (fst kw)))
                      (snd kw) in
      let t2 := add32 (Sigma0 a) (Maj a b c) in
      [add32 t1 t2; a; b; c; add32 d t1; e; f; g]
  | _ => st
  end.

Fixpoint zip_add (xs ys : list Z) : list Z :=
  match xs, ys with
  | x :: xs', y :: ys' => add32 x y :: zip_add xs' ys'
  | _, _ => []
  end.

Definition compress (h block : list Z) : list Z :=
  zip_add h (fold_left round (combine K (schedule block)) h).

(** [blocks n ws h]: at most [n] blocks of 16 words are consumed. *)
Fixpoint blocks (n : nat) (ws h : list Z) : list Z :=
  match n with
  | O => h
  | S n' =>
      match ws with
      | [] => h
      | _ => blocks n' (skipn 16 ws) (compress h (firstn 16 ws))
      end
  end.

Definition digest (msg : list Z) : list Z :=
  let ws := words_of_bytes (pad msg) in
  flat_map (be_bytes 4) (blocks (length ws) ws H0).

Definition hex_digit (d : Z) : ascii :=
  if d <? 10 then ascii_of_nat (Z.to_nat (48 + d))
  else ascii_of_nat (Z.to_nat (87 + d)).

Fixpoint hex (bs : list Z) : string :=
  match bs with
  | [] => EmptyString
  | b :: bs' =>
      String (hex_digit (Z.shiftr b 4))
        (String (hex_digit (Z.land b 0xF)) (hex bs'))
  end.

Fixpoint bytes_of_string (s : string) : list Z :=
  match s with
  | EmptyString => []
  | String c s' => Z.of_nat (nat_of_ascii c) :: bytes_of_string s'
  end.

(** [hashlib.sha256(s.encode('utf-8')).hexdigest()] *)
Definition hexdigest (s : string) : string := hex (digest (bytes_of_string s)).

End SHA256.

(** ** Python values

    What [response.json()] returns: [None], booleans, integers, floats,
    strings, lists and dicts.  A finite float is [m * 2^e].  A dict is the
    list of its items; the first item with a given key is the binding of
    that key. *)

Inductive json : Type :=
| JNull
| JBool (b : bool)
| JInt (n : Z)
| JFloat (m e : Z)
| JStr (s : string)
| JList (items : list json)
| JDict (items : list (string * json)).

(** The exceptions the client can raise.  The first four are the classes
    the module declares; [LibreViewAPIError] is the base class of the other
    three.  The last four are Python's own and are raised by the operators
    on [json] below. *)
Inductive exn : Type :=
| LibreViewAPIError (msg : string)
| LibreViewAuthenticationError (msg : string)
| LibreViewTimeoutError (msg : string)
| LibreViewResponseError (msg : string)
| KeyError (key : string)
| IndexError
| TypeError
| AttributeError.

(** [isinstance(e, LibreViewAPIError)] *)
Definition is_LibreViewAPIError (e : exn) : bool :=
  match e with
  | LibreViewAPIError _ | LibreViewAuthenticationError _
  | LibreViewTimeoutError _ | LibreViewResponseError _ => true
  | KeyError _ | IndexError | TypeError | AttributeError => false
  end.

Inductive result (A : Type) : Type :=
| Return (a : A)
| Raise (e : exn).
Arguments Return {A} a.
Arguments Raise {A} e.

Fixpoint dict_lookup (k : string) (items : list (string * json)) : option json :=
  match items with
  | [] => None
  | (k', v) :: rest => if String.eqb k k' then Some v else dict_lookup k rest
  end.

(** [p in s] on two strings: [p] occurs in [s]. *)
Fixpoint str_contains (p s : string) : bool :=
  String.prefix p s ||
  match s with
  | EmptyString => false
  | String _ s' => str_contains p s'
  end.

(** [bool(v)] *)
Definition py_truthy (v : json) : bool :=
  match v with
  | JNull => false
  | JBool b => b
  | JInt n => negb (n =? 0)
  | JFloat m _ => negb (m =? 0)
  | JStr s => negb (String.eqb s "")
  | JList items => match items with [] => false | _ => true end
  | JDict items => match items with [] => false | _ => true end
  end.

(** [v is None] *)
Definition py_is_none (v : json) : bool :=
  match v with JNull => true | _ => false end.

(** [isinstance(v, list)] *)
Definition py_is_list (v : json) : bool :=
  match v with JList _ => true | _ => false end.

(** [k in v] for a string [k]: a key of a dict, an element of a list, a
    substring of a string; the other values are not iterable. *)
Definition py_contains (k : string) (v : json) : result bool :=
  match v with
  | JDict items =>
      Return (match dict_lookup k items with Some _ => true | None => false end)
  | JList items =>
      Return (existsb (fun x => match x with JStr s => String.eqb k s | _ => false end)
                      items)
  | JStr s => Return (str_contains k s)
  | JNull | JBool _ | JInt _ | JFloat _ _ => Raise TypeError
  end.

(** [v[k]] for a string [k] *)
Definition py_getitem (v : json) (k : string) : result json :=
  match v with
  | JDict items =>
      match dict_lookup k items with
      | Some x => Return x
      | None => Raise (KeyError k)
      end
  | _ => Raise TypeError
  end.

(** [v[0]] *)
Definition py_getitem0 (v : json) : result json :=
  match v with
  | JList items =>
      match items with
      | x :: _ => Return x
      | [] => Raise IndexError
      end
  | JStr s =>
      match s with
      | String c _ => Return (JStr (String c EmptyString))
      | EmptyString => Raise IndexError
      end
  | JDict items => Raise TypeError
  | JNull | JBool _ | JInt _ | JFloat _ _ => Raise TypeError
  end.

(** [len(v)] where it is used, on a list. *)
Definition py_len (v : json) : Z :=
  match v with
  | JList items => Z.of_nat (length items)
  | _ => 0
  end.

(** [v.get(k)]: only a dict has the method. *)
Definition py_get (v : json) (k : string) : result json :=
  match v with
  | JDict items =>
      match dict_lookup k items with
      | Some x => Return x
      | None => Return JNull
      end
  | _ => Raise AttributeError
  end.

(** [str(v)].  The text of a list, a dict or a float is Python's [repr],
    which is not modelled: [repr] stands for it. *)
Definition py_str (repr : json -> string) (v : json) : string :=
  match v with
  | JNull => "None"
  | JBool true => "True"
  | JBool false => "False"
  | JInt n => NilZero.string_of_int (Z.to_int n)
  | JStr s => s
  | JFloat _ _ | JList _ | JDict _ => repr v
  end.

(** Truth of an [Optional[str]] field. *)
Definition str_truthy (o : option string) : bool :=
  match o with
  | Some s => negb (String.eqb s "")
  | None => false
  end.

(** [f"{o}"] for an [Optional[str]] field. *)
Definition format_optional (o : option string) : string :=
  match o with
  | Some s => s
  | None => "None"
  end.

(** ** The transport: [requests.Session] *)

Record response : Type := Response {
  status_code : Z;
  (** [response.json()]; [None] when it raises [ValueError] *)
  json_body : option json
}.

(** What a call on the session does: it returns a response, raises
    [requests.Timeout], or raises another exception, of text [ex]. *)
Inductive outcome : Type :=
| Responded (r : response)
| TimedOut
| Failed (ex : string).

Inductive session_method : Type :=
| SessionPost      (* self.session.post *)
| SessionGet       (* self.session.get *)
| SessionRequest.  (* self.session.request *)

Record call : Type := Call {
  via : session_method;
  http_method : string;
  url : string;
  headers : gmap string string;
  json_payload : option json;
  verify : bool;
  call_timeout : Z;
  extra_kwargs : list (string * json)
}.

Definition is_via (m : session_method) (c : call) : bool :=
  match m, via c with
  | SessionPost, SessionPost | SessionGet, SessionGet
  | SessionRequest, SessionRequest => true
  | _, _ => false
  end.

(** Number of calls made through one method of the session. *)
Definition count_via (m : session_method) (cs : list call) : nat :=
  length (List.filter (is_via m) cs).

(** The keyword arguments of [request]: ["headers"] apart from the rest. *)
Record kwargs : Type := Kwargs {
  kw_headers : option (gmap string string);
  kw_rest : list (string * json)
}.

Definition no_kwargs : kwargs := {| kw_headers := None; kw_rest := [] |}.

(** A service that answers the calls from a fixed list, in order, and
    times out when the list is used up. *)
Definition scripted (script : list outcome) (c : call) : outcome * list outcome :=
  match script with
  | o :: rest => (o, rest)
  | [] => (TimedOut, [])
  end.

(** ** The client object *)

Record client : Type := Client {
  email : string;
  password : string;
  default_version : string;
  product : string;
  timeout : Z;
  token : option string;
  account_id : option string;
  login_url : string;
  account_url : string
}.

Definition set_token (t : option string) (c : client) : client :=
  {| email := email c; password := password c;
     default_version := default_version c; product := product c;
     timeout := timeout c; token := t; account_id := account_id c;
     login_url := login_url c; account_url := account_url c |}.

Definition set_account_id (a : option string) (c : client) : client :=
  {| email := email c; password := password c;
     default_version := default_version c; product := product c;
     timeout := timeout c; token := token c; account_id := a;
     login_url := login_url c; account_url := account_url c |}.

(** ** Running a method

    A method runs on the client object and the remote service.  It returns
    a value or raises, leaves both in a new state (a mutation made before a
    [raise] stays), and makes calls on the session, recorded in order. *)

Record ran (Srv A : Type) : Type := Ran {
  result_of : result A;
  client_of : client;
  server_of : Srv;
  calls_of : list call
}.
Arguments Ran {Srv A} _ _ _ _.
Arguments result_of {Srv A} _.
Arguments client_of {Srv A} _.
Arguments server_of {Srv A} _.
Arguments calls_of {Srv A} _.

Definition action (Srv A : Type) : Type := client -> Srv -> ran Srv A.

Definition ret {Srv A} (a : A) : action Srv A :=
  fun c s => Ran (Return a) c s [].

Definition raise {Srv A} (e : exn) : action Srv A :=
  fun c s => Ran (Raise e) c s [].

Definition bind {Srv A B} (m : action Srv A) (k : A -> action Srv B)
  : action Srv B :=
  fun c s =>
    match m c s with
    | Ran (Return a) c' s' calls =>
        match k a c' s' with
        | Ran r c'' s'' calls' => Ran r c'' s'' (calls ++ calls')
        end
    | Ran (Raise e) c' s' calls => Ran (Raise e) c' s' calls
    end.

Notation "x <- m ;; k" := (bind m (fun x => k))
  (at level 100, m at next level, right associativity).
Notation "m ;;; k" := (bind m (fun _ => k))
  (at level 100, right associativity).

(** An operator on values that may raise. *)
Definition lift {Srv A} (r : result A) : action Srv A :=
  match r with
  | Return a => ret a
  | Raise e => raise e
  end.

(** Reading [self] and assigning to its two mutable fields. *)
Definition get_self {Srv} : action Srv client :=
  fun c s => Ran (Return c) c s [].

Definition assign_token {Srv} (t : string) : action Srv unit :=
  fun c s => Ran (Return tt) (set_token (Some t) c) s [].

Definition assign_account_id {Srv} (a : string) : action Srv unit :=
  fun c s => Ran (Return tt) (set_account_id (Some a) c) s [].

(** Default values of the optional parameters. *)
Definition get_graph_data_api_version : string := "4.16.0".
Definition init_default_version : string := "4.16.0".
Definition init_product : string := "llu.android".
Definition init_timeout : Z := 10.

Definition connections_url : string := "https://api.libreview.io/llu/connections".

Section Client.

(** The remote service: a state and what it answers to a call. *)
Variable Srv : Type.
Variable serve : Srv -> call -> outcome * Srv.

(** Python's [repr] of lists, dicts and floats, see [py_str]. *)
Variable repr : json -> string.

Abbreviation str := (py_str repr).

(** One call on the session: the service answers it. *)
Definition session_send (c : call) : action Srv outcome :=
  fun self s =>
    let '(o, s') := serve s c in
    Ran (Return o) self s' [c].

(** [get_headers(self, api_version, include_auth, include_account)]: the
    dict it builds from the fields of [self], then the method itself. *)
Definition header_fields (self : client) (api_version : option string)
    (include_auth include_account : bool) : gmap string string :=
  let version :=
    match api_version with
    | Some v => if str_truthy (Some v) then v else default_version self
    | None => default_version self
    end in
  let headers : gmap string string :=
    {[ "version" := version;
       "product" := product self;
       "Accept" := "application/json" ]} in
  let headers :=
    if include_auth && str_truthy (token self)
    then <["Authorization" := "Bearer " +:+ format_optional (token self)]> headers
    else headers in
  let headers :=
    match account_id self with
    | Some a =>
        if include_account && str_truthy (Some a)
        then <["Account-Id" := a]> headers
        else headers
    | None => headers
    end in
  headers.

Definition get_headers (api_version : option string)
    (include_auth include_account : bool) : action Srv (gmap string string) :=
  self <- get_self ;;
  ret (header_fields self api_version include_auth include_account).

(** [login(self)] *)
Definition login : action Srv unit :=
  self <- get_self ;;
  let payload :=
    JDict [("email", JStr (email self)); ("password", JStr (password self))] in
  headers <- get_headers (Some (default_version self)) false false ;;
  let headers := <["Content-Type" := "application/json"]> headers in
  o <- session_send
         {| via := SessionPost; http_method := "POST"; url := login_url self;
            headers := headers; json_payload := Some payload;
            verify := false; call_timeout := timeout self;
            extra_kwargs := [] |} ;;
  response <-
    match o with
    | Responded r => ret r
    | TimedOut => raise (LibreViewTimeoutError "Login request timed out.")
    | Failed ex =>
        raise (LibreViewAPIError ("Unexpected error during login: " +:+ ex))
    end ;;
  data <-
    match json_body response with
    | Some d => ret d
    | None => raise (LibreViewResponseError "Login response was not JSON.")
    end ;;
  if status_code response =? 401
  then raise (LibreViewAuthenticationError "Invalid credentials.")
  else
    no_data <-
      (if negb (status_code response =? 200) then ret true
       else b <- lift (py_contains "data" data) ;; ret (negb b)) ;;
    if no_data : bool
    then raise (LibreViewAPIError ("Failed to log in: " +:+ str data))
    else
      d <- lift (py_getitem data "data") ;;
      ticket <- lift (py_getitem d "authTicket") ;;
      t <- lift (py_getitem ticket "token") ;;
      assign_token (str t).

(** [fetch_and_hash_account_id(self)] *)
Definition fetch_and_hash_account_id : action Srv unit :=
  headers <- get_headers (Some "4.7") true false ;;
  self <- get_self ;;
  o <- session_send
         {| via := SessionGet; http_method := "GET"; url := account_url self;
            headers := headers; json_payload := None;
            verify := false; call_timeout := timeout self;
            extra_kwargs := [] |} ;;
  response <-
    match o with
    | Responded r => ret r
    | TimedOut => raise (LibreViewTimeoutError "Account ID request timed out.")
    | Failed ex =>
        raise (LibreViewAPIError
                 ("Unexpected error fetching account id: " +:+ ex))
    end ;;
  data <-
    match json_body response with
    | Some d => ret d
    | None => raise (LibreViewResponseError "Account ID response was not JSON.")
    end ;;
  no_data <-
    (if negb (status_code response =? 200) then ret true
     else b <- lift (py_contains "data" data) ;; ret (negb b)) ;;
  if no_data : bool
  then raise (LibreViewAPIError ("Failed to get account data: " +:+ str data))
  else
    d <- lift (py_getitem data "data") ;;
    user <- lift (py_getitem d "user") ;;
    id <- lift (py_getitem user "id") ;;
    let raw_id := str id in
    assign_account_id (SHA256.hexdigest raw_id).

(** [login_and_setup(self)] *)
Definition login_and_setup : action Srv unit :=
  login ;;; fetch_and_hash_account_id.

(** [request(self, method, url, api_version, **kwargs)] *)
Definition request (method url : string) (api_version : option string)
    (kw : kwargs) : action Srv response :=
  headers <- get_headers api_version true true ;;
  let headers :=
    match kw_headers kw with
    | Some extra => extra ∪ headers
    | None => headers
    end in
  let kw := {| kw_headers := None; kw_rest := kw_rest kw |} in
  self <- get_self ;;
  o <- session_send
         {| via := SessionRequest; http_method := method; url := url;
            headers := headers; json_payload := None;
            verify := false; call_timeout := timeout self;
            extra_kwargs := kw_rest kw |} ;;
  response <-
    match o with
    | Responded r => ret r
    | TimedOut =>
        raise (LibreViewTimeoutError ("Request to " +:+ url +:+ " timed out."))
    | Failed ex =>
        raise (LibreViewAPIError ("Unexpected error during request: " +:+ ex))
    end ;;
  if status_code response =? 401
  then
    login_and_setup ;;;
    headers <- get_headers api_version true true ;;
    self <- get_self ;;
    o <- session_send
           {| via := SessionRequest; http_method := method; url := url;
              headers := headers; json_payload := None;
              verify := false; call_timeout := timeout self;
              extra_kwargs := kw_rest kw |} ;;
    match o with
    | Responded r => ret r
    | TimedOut =>
        raise (LibreViewTimeoutError
                 ("Retry request to " +:+ url +:+ " timed out."))
    | Failed ex =>
        raise (LibreViewAPIError
                 ("Unexpected error during retry request: " +:+ ex))
    end
  else ret response.

(** [get_patient_id(self)]; the [None] it returns is [JNull]. *)
Definition get_patient_id : action Srv json :=
  response <- request "GET" connections_url None no_kwargs ;;
  connections <-
    match json_body response with
    | Some d => ret d
    | None => raise (LibreViewResponseError "Connections response was not JSON.")
    end ;;
  data <- lift (py_get connections "data") ;;
  if negb (py_truthy data) || negb (py_is_list data) || (py_len data =? 0)
  then ret JNull
  else
    first <- lift (py_getitem0 data) ;;
    has_id <- lift (py_contains "patientId" first) ;;
    if negb has_id then ret JNull
    else lift (py_get first "patientId").

(** [f"https://api.libreview.io/llu/connections/{patientId}/graph"] *)
Definition graph_url (patientId : json) : string :=
  "https://api.libreview.io/llu/connections/" +:+ str patientId +:+ "/graph".

(** [get_graph_data(self, patientId, api_version)] *)
Definition get_graph_data (patientId : json) (api_version : option string)
  : action Srv json :=
  patientId <-
    (if py_is_none patientId
     then
       found <- get_patient_id ;;
       if py_is_none found
       then raise (LibreViewAPIError "No patientId available to query graph data.")
       else ret found
     else ret patientId) ;;
  let url := graph_url patientId in
  response <- request "GET" url api_version no_kwargs ;;
  data <-
    match json_body response with
    | Some d => ret d
    | None => raise (LibreViewResponseError "Graph data response was not JSON.")
    end ;;
  has_data <- lift (py_contains "data" data) ;;
  if negb has_data
  then raise (LibreViewAPIError ("No graph data returned: " +:+ str data))
  else lift (py_getitem data "data").

(** [LibreViewAPI(email, password, default_version, product, timeout)]:
    the fields are set, then [login_and_setup] runs on the new object. *)
Definition init (email password default_version product : string)
    (timeout : Z) (s : Srv) : ran Srv unit :=
  login_and_setup
    {| email := email; password := password;
       default_version := default_version; product := product;
       timeout := timeout; token := None; account_id := None;
       login_url := "https://api.libreview.io/llu/auth/login";
       account_url := "https://api-us.libreview.io/account" |}
    s.

End Client.

(** ** What no method changes

    The fields set when the client is created and never assigned again. *)
Definition same_config (c c' : client) : Prop :=
  email c' = email c /\ password c' = password c /\
  default_version c' = default_version c /\ product c' = product c /\
  timeout c' = timeout c /\
  login_url c' = login_url c /\ account_url c' = account_url c.

(** Every character of [s] is one of [0-9a-f]. *)
Fixpoint all_lower_hex (s : string) : bool :=
  match s with
  | EmptyString => true
  | String a s' =>
      str_contains (String a EmptyString) "0123456789abcdef" && all_lower_hex s'
  end.

(** ** The console: [blood-sugar-console.py]

    The script keeps the last payload in the global [graph_data], refreshes
    it through the client and draws it on the terminal.  What it writes is
    recorded as a list of events; what comes from outside the repository
    (pyfiglet, [str.splitlines], [str.center], the size of the terminal and
    the time zone database) is a parameter.  The scheduler and the sleep
    loop are not modelled. *)

(** [colorama.Fore.RED], [Fore.YELLOW], [Fore.GREEN] *)
Inductive fore : Type := RED | YELLOW | GREEN.

Definition esc : string := String (ascii_of_nat 27) EmptyString.

(** The text of a colour and of [Style.RESET_ALL]. *)
Definition fore_code (f : fore) : string :=
  match f with
  | RED => esc +:+ "[31m"
  | YELLOW => esc +:+ "[33m"
  | GREEN => esc +:+ "[32m"
  end.

Definition reset_all : string := esc +:+ "[0m".

Definition newline : string := String (ascii_of_nat 10) EmptyString.

(** A number as [m * 2^e]: integers, booleans (which Python orders as 0
    and 1) and floats; no other value is ordered against an integer. *)
Definition py_number (v : json) : option (Z * Z) :=
  match v with
  | JInt n => Some (n, 0)
  | JBool b => Some (if b then 1 else 0, 0)
  | JFloat m e => Some (m, e)
  | JNull | JStr _ | JList _ | JDict _ => None
  end.

(** [m * 2^e] against the integer [n]. *)
Definition compare_int (x : Z * Z) (n : Z) : comparison :=
  let (m, e) := x in
  if 0 <=? e then (m * 2 ^ e ?= n) else (m ?= n * 2 ^ (- e)).

(** [get_blood_sugar_color(value)] *)
Definition get_blood_sugar_color (value : json) : result fore :=
  match py_number value with
  | None => Raise TypeError
  | Some x =>
      let gt n := match compare_int x n with Gt => true | _ => false end in
      let lt n := match compare_int x n with Lt => true | _ => false end in
      let ge n := negb (lt n) in
      let le n := negb (gt n) in
      if gt 200 then Return RED
      else if gt 180 then Return YELLOW
      else if ge 80 && le 180 then Return GREEN
      else if ge 70 && lt 80 then Return YELLOW
      else Return RED
  end.

(** Exceptions of the console: those of the client and of the operators
    on values, and those of the standard library calls of the display. *)
Inductive console_exn : Type :=
| ClientError (e : exn)
| ValueError
| OverflowError
| KeyErrorInt (key : Z).

Inductive console_result (A : Type) : Type :=
| Done (a : A)
| Crashed (e : console_exn).
Arguments Done {A} a.
Arguments Crashed {A} e.

Inductive console_event : Type :=
| ClearScreen            (* clear_console() *)
| Print (text : string). (* print(text) *)

(** What a piece of the display does: its result and what it wrote, also
    when it crashes half-way. *)
Definition console (A : Type) : Type := console_result A * list console_event.

Definition console_ret {A} (a : A) : console A := (Done a, []).

Definition console_bind {A B} (m : console A) (k : A -> console B) : console B :=
  match m with
  | (Done a, out) => match k a with (r, out') => (r, (out ++ out')%list) end
  | (Crashed e, out) => (Crashed e, out)
  end.

Definition emit (events : list console_event) : console unit := (Done tt, events).

Definition of_result {A} (r : result A) : console A :=
  match r with
  | Return a => (Done a, [])
  | Raise e => (Crashed (ClientError e), [])
  end.

Notation "x <~ m ;; k" := (console_bind m (fun x => k))
  (at level 100, m at next level, right associativity).
Notation "m ;;~ k" := (console_bind m (fun _ => k))
  (at level 100, right associativity).

(** Number of characters of a string: the bytes that do not continue a
    UTF-8 sequence. *)
Fixpoint code_points (s : string) : nat :=
  match s with
  | EmptyString => O
  | String a s' =>
      if (128 <=? Z.of_nat (nat_of_ascii a)) && (Z.of_nat (nat_of_ascii a) <? 192)
      then code_points s'
      else S (code_points s')
  end.

(** The keys of a dict, each once. *)
Fixpoint distinct_keys (items : list (string * json)) : list string :=
  match items with
  | [] => []
  | (k, _) :: rest =>
      if existsb (String.eqb k) (distinct_keys rest)
      then distinct_keys rest
      else k :: distinct_keys rest
  end.

(** [len(v)] on any value. *)
Definition py_len_of (v : json) : result Z :=
  match v with
  | JList items => Return (Z.of_nat (length items))
  | JStr s => Return (Z.of_nat (code_points s))
  | JDict items => Return (Z.of_nat (length (distinct_keys items)))
  | JNull | JBool _ | JInt _ | JFloat _ _ => Raise TypeError
  end.

(** The last character of a string, with the bytes that continue it. *)
Fixpoint last_char (s : string) : string :=
  match s with
  | EmptyString => EmptyString
  | String a s' =>
      if Nat.eqb (code_points s') 0 then String a s' else last_char s'
  end.

(** [v[-1]] *)
Definition py_getitem_last (v : json) : console_result json :=
  match v with
  | JList items =>
      match rev items with
      | x :: _ => Done x
      | [] => Crashed (ClientError IndexError)
      end
  | JStr s =>
      if Nat.eqb (code_points s) 0 then Crashed (ClientError IndexError)
      else Done (JStr (last_char s))
  | JDict _ => Crashed (KeyErrorInt (-1))
  | JNull | JBool _ | JInt _ | JFloat _ _ => Crashed (ClientError TypeError)
  end.

(** [str(e)] for the exceptions [except LibreViewAPIError as e] catches;
    [None] for those it lets through. *)
Definition caught_message (e : exn) : option string :=
  match e with
  | LibreViewAPIError msg | LibreViewAuthenticationError msg
  | LibreViewTimeoutError msg | LibreViewResponseError msg => Some msg
  | KeyError _ | IndexError | TypeError | AttributeError => None
  end.

(** The state of the script after a refresh: the globals [graph_data] and
    [api], the service, the calls made on the session, what was written,
    and whether the refresh returned. *)
Record refreshed (Srv : Type) : Type := Refreshed {
  refresh_result : console_result unit;
  graph_data_of : json;
  api_of : client;
  service_of : Srv;
  requests_of : list call;
  written_of : list console_event
}.
Arguments Refreshed {Srv} _ _ _ _ _ _.
Arguments refresh_result {Srv} _.
Arguments graph_data_of {Srv} _.
Arguments api_of {Srv} _.
Arguments service_of {Srv} _.
Arguments requests_of {Srv} _.
Arguments written_of {Srv} _.

Section Console.

Variable Srv : Type.
Variable serve : Srv -> call -> outcome * Srv.
Variable repr : json -> string.

(** [pyfiglet.figlet_format(text, font=font)] *)
Variable figlet_format : string -> string -> string.

(** [text.splitlines()] and [text.center(width)] *)
Variable splitlines : string -> list string.
Variable center : string -> Z -> string.

(** [os.get_terminal_size().columns]; [None] when it raises [OSError]. *)
Variable terminal_columns : option Z.

(** Lines 62 to 65 on a string: [strptime] with the format
    ['%m/%d/%Y %I:%M:%S %p'], read as UTC, moved to America/Chicago and
    written with ['%Y-%m-%d %I:%M:%S %p %Z']; or the exception raised. *)
Variable chicago_time : string -> console_result string.

(** [get_terminal_width()] *)
Definition get_terminal_width : Z :=
  match terminal_columns with
  | Some columns => columns
  | None => 80
  end.

(** [print_centered(figlet_str, width, color)]; [color] is [None] or a
    [Fore] colour, which is a non-empty string. *)
Definition print_centered (figlet_str : string) (width : Z)
    (color : option fore) : list console_event :=
  map (fun line =>
         let output := center line width in
         Print (match color with
                | Some f => fore_code f +:+ output +:+ reset_all
                | None => output
                end))
      (splitlines figlet_str).

(** [print_blood_sugar()], reading the global [graph_data]. *)
Definition print_blood_sugar (graph_data : json) : console unit :=
  emit [ClearScreen] ;;~
  let terminal_width := get_terminal_width in
  let title := figlet_format "Blood Sugar Console" "small" in
  emit (print_centered title terminal_width None) ;;~
  has_reading <~
    (if py_truthy graph_data
     then
       present <~ of_result (py_contains "graphData" graph_data) ;;
       if present : bool
       then
         readings <~ of_result (py_getitem graph_data "graphData") ;;
         n <~ of_result (py_len_of readings) ;;
         console_ret (0 <? n)
       else console_ret false
     else console_ret false) ;;
  if has_reading : bool
  then
    readings <~ of_result (py_getitem graph_data "graphData") ;;
    latest_reading <~ (py_getitem_last readings, []) ;;
    stamp <~ of_result (py_getitem latest_reading "FactoryTimestamp") ;;
    cst_time_str <~
      (match stamp with
       | JStr text => (chicago_time text, [])
       | _ => (Crashed (ClientError TypeError), [])
       end) ;;
    value <~ of_result (py_getitem latest_reading "Value") ;;
    color <~ of_result (get_blood_sugar_color value) ;;
    let value_fig := figlet_format (py_str repr value) "big" in
    emit [Print ""] ;;~
    emit (print_centered value_fig terminal_width (Some color)) ;;~
    emit [Print (center ("This reading was captured at: " +:+ cst_time_str
                         +:+ ".") terminal_width)]
  else
    emit [Print (newline +:+
                 center "Waiting for the applicaiton to fetch updated results ..."
                        terminal_width
                 +:+ newline)].

(** [update_graph_data()] on the globals [graph_data] and [api]. *)
Definition update_graph_data (graph_data : json) (api : client) (s : Srv)
  : refreshed Srv :=
  let fetched :=
    get_graph_data Srv serve repr JNull (Some get_graph_data_api_version) api s in
  match result_of fetched with
  | Return data =>
      let shown := print_blood_sugar data in
      Refreshed (fst shown) data (client_of fetched) (server_of fetched)
                (calls_of fetched) (snd shown)
  | Raise e =>
      match caught_message e with
      | Some message =>
          let shown := print_blood_sugar graph_data in
          Refreshed (fst shown) graph_data (client_of fetched)
                    (server_of fetched) (calls_of fetched)
                    (Print ("Error fetching graph data: " +:+ message)
                     :: snd shown)
      | None =>
          Refreshed (Crashed (ClientError e)) graph_data (client_of fetched)
                    (server_of fetched) (calls_of fetched) []
      end
  end.

(** The script up to its first refresh: [api = LibreViewAPI(EMAIL,
    PASSWORD)], [graph_data = None], then [update_graph_data()]. *)
Definition startup (EMAIL PASSWORD : string) (s : Srv) : refreshed Srv :=
  let made := init Srv serve repr EMAIL PASSWORD init_default_version
                init_product init_timeout s in
  match result_of made with
  | Return _ =>
      let first := update_graph_data JNull (client_of made) (server_of made) in
      Refreshed (refresh_result first) (graph_data_of first) (api_of first)
                (service_of first) (calls_of made ++ requests_of first)%list
                (written_of first)
  | Raise e =>
      Refreshed (Crashed (ClientError e)) JNull (client_of made)
                (server_of made) (calls_of made) []
  end.

End Console.

(** ** Sample data

    A client in mid-session, and answers of the service in the shape the
    endpoints document. *)

Definition stale_client : client :=
  {| email := "user@example.org"; password := "secret";
     default_version := "4.20.0"; product := "llu.android"; timeout := 10;
     token := Some "stale-token"; account_id := Some "old-hash";
     login_url := "https://api.libreview.io/llu/auth/login";
     account_url := "https://api-us.libreview.io/account" |}.

Definition login_body (t : json) : json :=
  JDict [("status", JInt 0);
         ("data", JDict [("authTicket", JDict [("token", t)])])].

Definition account_body (id : json) : json :=
  JDict [("data", JDict [("user", JDict [("id", id)])])].

Definition answers (status : Z) (body : json) : outcome :=
  Responded {| status_code := status; json_body := Some body |}.

(** An answer whose body is not JSON, such as a gateway's HTML page. *)
Definition answers_html (status : Z) : outcome :=
  Responded {| status_code := status; json_body := None |}.

(** A stand-in for [repr] where a concrete run needs one. *)
Definition repr_elided (v : json) : string := "...".

(** Scripts for [scripted]: the first answer is a 401 with a JSON body; a
    login and an account lookup that succeed follow in the first two, a
    login refused in the third. *)
Definition expired_then_ok : list outcome :=
  [ answers 401 (JDict [("message", JStr "expired")]);
    answers 200 (login_body (JStr "fresh-token"));
    answers 200 (account_body (JStr "12345"));
    answers 200 (JDict [("data", JList [])]) ].

Definition expired_twice : list outcome :=
  [ answers 401 (JDict [("message", JStr "expired")]);
    answers 200 (login_body (JStr "fresh-token"));
    answers 200 (account_body (JStr "12345"));
    answers 401 (JDict [("message", JStr "expired")]) ].

Definition expired_then_refused : list outcome :=
  [ answers 401 (JDict [("message", JStr "expired")]);
    answers 401 (JDict [("message", JStr "bad credentials")]) ].

(** Keyword arguments with a header of the caller. *)
Definition traced : kwargs :=
  {| kw_headers := Some {[ "X-Trace" := "abc" ]}; kw_rest := [] |}.

(** Stand-ins for the parameters of the console where a concrete run
    needs them: the figure of a text is the text, on one line, not
    centred; the clock knows one timestamp. *)
Definition plain_figlet (text font : string) : string := text.

Definition one_line (text : string) : list string := [text].

Definition uncentered (text : string) (width : Z) : string := text.

Definition sample_clock (text : string) : console_result string :=
  if String.eqb text "11/04/2026 06:15:00 PM"
  then Done "2026-11-04 12:15:00 PM CST"
  else Crashed ValueError.

(** A payload with two readings, the last one of 205, and one whose last
    reading has no value. *)
Definition earlier_reading : json :=
  JDict [("FactoryTimestamp", JStr "11/04/2026 06:10:00 PM");
         ("Value", JInt 104)].

Definition last_reading : list (string * json) :=
  [("FactoryTimestamp", JStr "11/04/2026 06:15:00 PM"); ("Value", JInt 205)].

Definition sample_items : list (string * json) :=
  [("connection", JDict [("patientId", JStr "p-1")]);
   ("graphData", JList [earlier_reading; JDict last_reading])].

Definition sample_payload : json := JDict sample_items.

Definition broken_reading : list (string * json) :=
  [("FactoryTimestamp", JStr "11/04/2026 06:15:00 PM")].

Definition broken_items : list (string * json) :=
  [("graphData", JList [JDict broken_reading])].

Definition broken_payload : json := JDict broken_items.

(** A client as [init] leaves it, and scripts for a refresh. *)
Definition fresh_client : client :=
  {| email := "user@example.org"; password := "secret";
     default_version := "4.16.0"; product := "llu.android"; timeout := 10;
     token := Some "fresh-token";
     account_id :=
       Some "5994471abb01112afcc18159f6cc74b4f511b99806da59b3caf5a9c173cacfc5";
     login_url := "https://api.libreview.io/llu/auth/login";
     account_url := "https://api-us.libreview.io/account" |}.

Definition connections_body : json :=
  JDict [("data", JList [JDict [("patientId", JStr "p-1")];
                         JDict [("patientId", JStr "p-2")]])].

Definition refresh_ok : list outcome :=
  [ answers 200 connections_body;
    answers 200 (JDict [("data", sample_payload)]) ].

Definition refresh_no_connection : list outcome :=
  [ answers 200 (JDict [("data", JList [])]) ].

Definition refresh_bad_login : list outcome :=
  [ answers 401 (JDict [("message", JStr "expired")]);
    answers 200 (JDict [("data", JDict [])]) ].

(** * Properties *)

Arguments header_fields : simpl never.
Arguments graph_url : simpl never.
Arguments py_str : simpl never.

(** *** SHA-256 on known digests *)

Example sha256_constants :
  length SHA256.K = 64%nat /\
  hd 0 SHA256.K = 0x428a2f98 /\ List.last SHA256.K 0 = 0xc67178f2 /\
  hd 0 SHA256.H0 = 0x6a09e667 /\ List.last SHA256.H0 0 = 0x5be0cd19.
Proof. vm_compute. repeat split. Qed.

Example sha256_empty :
  SHA256.hexdigest "" =
  "e3b0c44298fc1c149afbf4c8996fb92427ae41e4649b934ca495991b7852b855".
Proof. vm_compute. reflexivity. Qed.

Example sha256_abc :
  SHA256.hexdigest "abc" =
  "ba7816bf8f01cfea414140de5dae2223b00361a396177a9cb410ff61f20015ad".
Proof. vm_compute. reflexivity. Qed.

Example sha256_two_blocks :
  SHA256.hexdigest (String.concat "" (repeat "a" 119)) =
  "31eba51c313a5c08226adf18d4a359cfdfd8d2e816b13f4af952f7ea6584dcfb".
Proof. vm_compute. reflexivity. Qed.

Example sha256_pad_boundary :
  SHA256.hexdigest (String.concat "" (repeat "a" 56)) =
  "b35439a4ac6f0948b6d6f9e3c6af0f5f590ce20f1bde7090ef7970686ec6738a".
Proof. vm_compute. reflexivity. Qed.

Section Properties.

Variable Srv : Type.
Variable serve : Srv -> call -> outcome * Srv.
Variable repr : json -> string.

Ltac run_step :=
  cbn [result_of client_of server_of calls_of bind ret raise lift get_self
       assign_token assign_account_id session_send get_headers fst snd app
       status_code json_body negb kw_rest kw_headers].

Ltac run := unfold bind, ret, raise, lift, get_self, assign_token,
  assign_account_id, session_send, get_headers; run_step.

(** Case analysis on the innermost scrutinee of the goal. *)
Ltac case_step :=
  match goal with
  | |- context [match ?x with _ => _ end] =>
      lazymatch x with
      | context [match _ with _ => _ end] => fail
      | _ => destruct x eqn:?
      end
  end.

Ltac cases := repeat (run_step; case_step); run_step.

(** Uses the two hypotheses that name the first call of a run and the
    answer of the service to it. *)
Ltac first_call :=
  let Hhd := fresh "Hhd" in
  let Hs := fresh "Hs" in
  intros Hhd; cbn in Hhd; injection Hhd as <-;
  match goal with
  | E : serve _ _ = _ |- _ => rewrite E
  end;
  intros Hs; simplify_eq; cbn [status_code json_body] in *.

Lemma bind_run {A B} (m : action Srv A) (k : A -> action Srv B) c s :
  bind m k c s =
  match result_of (m c s) with
  | Return a =>
      let r := k a (client_of (m c s)) (server_of (m c s)) in
      Ran (result_of r) (client_of r) (server_of r)
          (calls_of (m c s) ++ calls_of r)
  | Raise e =>
      Ran (Raise e) (client_of (m c s)) (server_of (m c s)) (calls_of (m c s))
  end.
Proof.
  unfold bind. destruct (m c s) as [[a|e] c' s' cs]; cbn; [|reflexivity].
  destruct (k a c' s'); reflexivity.
Qed.

Lemma count_via_app m (xs ys : list call) :
  count_via m (xs ++ ys) = (count_via m xs + count_via m ys)%nat.
Proof. unfold count_via. rewrite List.filter_app, List.length_app. reflexivity. Qed.

(** *** Headers *)

Lemma header_fields_version c av ia ic :
  header_fields c av ia ic !! "version" =
  Some (match av with
        | Some v => if str_truthy (Some v) then v else default_version c
        | None => default_version c
        end).
Proof.
  unfold header_fields.
  destruct (account_id c) as [a|]; [destruct (ic && str_truthy (Some a))|];
    destruct (ia && str_truthy (token c)); by simplify_map_eq.
Qed.

Lemma header_fields_authorization c av ia ic :
  header_fields c av ia ic !! "Authorization" =
  if ia && str_truthy (token c)
  then Some ("Bearer " +:+ format_optional (token c)) else None.
Proof.
  unfold header_fields.
  destruct (account_id c) as [a|]; [destruct (ic && str_truthy (Some a))|];
    destruct (ia && str_truthy (token c)); by simplify_map_eq.
Qed.

Lemma header_fields_account_id c av ia ic :
  header_fields c av ia ic !! "Account-Id" =
  if ic && str_truthy (account_id c) then account_id c else None.
Proof.
  unfold header_fields.
  destruct (account_id c) as [a|]; [destruct (ic && str_truthy (Some a)) eqn:E|];
    destruct (ia && str_truthy (token c)); rewrite ?andb_false_r;
    by simplify_map_eq.
Qed.

(** C5. [get_headers] returns a dict and changes nothing: the client, the
    service and the session are as before.  Whatever the two flags, the
    dict has no [Authorization] entry when no token is set and no
    [Account-Id] entry when no account hash is set.  It has
    [Authorization: Bearer <token>] exactly when [include_auth] holds and a
    token is present, and [Account-Id: <hash>] exactly when
    [include_account] holds and a hash is present, where present is
    Python's truth test on the field (neither [None] nor empty). *)
Theorem get_headers_conditional_entries
    (c : client) (s : Srv) (api_version : option string)
    (include_auth include_account : bool) :
  exists h,
    get_headers Srv api_version include_auth include_account c s
      = Ran (Return h) c s [] /\
    (token c = None -> h !! "Authorization" = None) /\
    (account_id c = None -> h !! "Account-Id" = None) /\
    (is_Some (h !! "Authorization") <->
       include_auth = true /\ str_truthy (token c) = true) /\
    (forall t, include_auth = true -> token c = Some t -> t <> "" ->
       h !! "Authorization" = Some ("Bearer " +:+ t)) /\
    (is_Some (h !! "Account-Id") <->
       include_account = true /\ str_truthy (account_id c) = true) /\
    (forall a, include_account = true -> account_id c = Some a -> a <> "" ->
       h !! "Account-Id" = Some a).
Proof.
  exists (header_fields c api_version include_auth include_account).
  split; [reflexivity|].
  rewrite header_fields_authorization, header_fields_account_id.
  split_and!.
  - intros ->. by rewrite andb_false_r.
  - intros ->. by rewrite andb_false_r.
  - destruct include_auth, (str_truthy (token c)); cbn; split;
      try (by intros [? ?]); try (by intros [? ?]); by eauto.
  - intros t -> -> Ht. cbn. destruct (String.eqb_spec t ""); [done|reflexivity].
  - destruct include_account, (str_truthy (account_id c)) eqn:E; cbn; split;
      try (by intros [? ?]); try (by intros [? ?]); try (by eauto).
    intros _. destruct (account_id c); [by eexists|done].
  - intros a -> -> Ha. cbn. destruct (String.eqb_spec a ""); [done|reflexivity].
Qed.

(** *** [login] and [fetch_and_hash_account_id] *)

(** [login] makes one call, a POST, and assigns at most the token. *)
Lemma login_frame (c : client) (s : Srv) :
  exists k,
    calls_of (login Srv serve repr c s) = [k] /\
    via k = SessionPost /\
    server_of (login Srv serve repr c s) = snd (serve s k) /\
    match result_of (login Srv serve repr c s) with
    | Return _ =>
        exists t, client_of (login Srv serve repr c s) = set_token (Some t) c
    | Raise _ => client_of (login Srv serve repr c s) = c
    end.
Proof.
  unfold login. run. cases.
  all: eexists; (split; [reflexivity|split; [reflexivity|split]]).
  all: try match goal with H : serve _ _ = _ |- _ => rewrite H end.
  all: try reflexivity.
  eexists; reflexivity.
Qed.

(** [fetch_and_hash_account_id] makes one call, a GET, and assigns at most
    the account id. *)
Lemma fetch_frame (c : client) (s : Srv) :
  exists k,
    calls_of (fetch_and_hash_account_id Srv serve repr c s) = [k] /\
    via k = SessionGet /\
    server_of (fetch_and_hash_account_id Srv serve repr c s) = snd (serve s k) /\
    match result_of (fetch_and_hash_account_id Srv serve repr c s) with
    | Return _ =>
        exists a, client_of (fetch_and_hash_account_id Srv serve repr c s)
                  = set_account_id (Some a) c
    | Raise _ => client_of (fetch_and_hash_account_id Srv serve repr c s) = c
    end.
Proof.
  unfold fetch_and_hash_account_id. run. cases.
  all: eexists; (split; [reflexivity|split; [reflexivity|split]]).
  all: try match goal with H : serve _ _ = _ |- _ => rewrite H end.
  all: try reflexivity.
  eexists; reflexivity.
Qed.

(** The call [login] makes. *)
Lemma login_call (c : client) (s : Srv) (k : call) :
  hd_error (calls_of (login Srv serve repr c s)) = Some k ->
  k = {| via := SessionPost; http_method := "POST"; url := login_url c;
         headers := <["Content-Type" := "application/json"]>
                      (header_fields c (Some (default_version c)) false false);
         json_payload :=
           Some (JDict [("email", JStr (email c));
                        ("password", JStr (password c))]);
         verify := false; call_timeout := timeout c; extra_kwargs := [] |}.
Proof. unfold login. run. cases; cbn; congruence. Qed.

(** The call [fetch_and_hash_account_id] makes. *)
Lemma fetch_call (c : client) (s : Srv) (k : call) :
  hd_error (calls_of (fetch_and_hash_account_id Srv serve repr c s)) = Some k ->
  k = {| via := SessionGet; http_method := "GET"; url := account_url c;
         headers := header_fields c (Some "4.7") true false;
         json_payload := None;
         verify := false; call_timeout := timeout c; extra_kwargs := [] |}.
Proof. unfold fetch_and_hash_account_id. run. cases; cbn; congruence. Qed.

Lemma login_and_setup_run (c : client) (s : Srv) :
  login_and_setup Srv serve repr c s =
  match result_of (login Srv serve repr c s) with
  | Return _ =>
      let r := fetch_and_hash_account_id Srv serve repr
                 (client_of (login Srv serve repr c s))
                 (server_of (login Srv serve repr c s)) in
      Ran (result_of r) (client_of r) (server_of r)
          (calls_of (login Srv serve repr c s) ++ calls_of r)
  | Raise e =>
      Ran (Raise e) (client_of (login Srv serve repr c s))
          (server_of (login Srv serve repr c s))
          (calls_of (login Srv serve repr c s))
  end.
Proof. unfold login_and_setup. rewrite bind_run. reflexivity. Qed.

(** One run of [login_and_setup] posts to the login endpoint once and never
    goes through [session.request]. *)
Lemma login_and_setup_calls (c : client) (s : Srv) :
  count_via SessionPost (calls_of (login_and_setup Srv serve repr c s)) = 1%nat /\
  count_via SessionRequest (calls_of (login_and_setup Srv serve repr c s)) = 0%nat.
Proof.
  rewrite login_and_setup_run.
  destruct (login_frame c s) as (k & Hk & Hv & _).
  destruct (result_of (login Srv serve repr c s)); cbn [calls_of].
  - destruct (fetch_frame (client_of (login Srv serve repr c s))
                (server_of (login Srv serve repr c s))) as (k' & Hk' & Hv' & _).
    rewrite Hk, Hk'. unfold count_via, is_via. cbn. rewrite Hv, Hv'. by cbn.
  - rewrite Hk. unfold count_via, is_via. cbn. rewrite Hv. by cbn.
Qed.

(** C2, as the code has it.  When the login endpoint answers [login] with
    status 401, [login] raises: [LibreViewAuthenticationError] when the
    body of the answer is JSON, [LibreViewResponseError] when it is not,
    because the body is parsed before the status is looked at.  Either way
    the client, and so its token, is as it was before the call. *)
Theorem login_401_raises_and_keeps_token
    (c : client) (s s' : Srv) (k : call) (r : response) :
  hd_error (calls_of (login Srv serve repr c s)) = Some k ->
  serve s k = (Responded r, s') ->
  status_code r = 401 ->
  result_of (login Srv serve repr c s) =
    match json_body r with
    | Some _ => Raise (LibreViewAuthenticationError "Invalid credentials.")
    | None => Raise (LibreViewResponseError "Login response was not JSON.")
    end /\
  client_of (login Srv serve repr c s) = c /\
  token (client_of (login Srv serve repr c s)) = token c.
Proof.
  unfold login. run. cases; first_call; try done.
  all: intros H401; try (rewrite H401 in * ); cbn in *; congruence.
Qed.

Lemma py_getitem_contains (v x : json) (k : string) :
  py_getitem v k = Return x -> py_contains k v = Return true.
Proof.
  destruct v; cbn; try discriminate.
  destruct (dict_lookup k items); [reflexivity|discriminate].
Qed.


(** C6. When [login] returns and the [fetch_and_hash_account_id] that
    follows raises, [login_and_setup] raises that same exception; the
    client keeps the token [login] has just stored, and its account id is
    the one it had before the call. *)
Theorem login_and_setup_keeps_token_when_fetch_raises
    (c : client) (s : Srv) (e : exn) :
  result_of (login Srv serve repr c s) = Return tt ->
  result_of (fetch_and_hash_account_id Srv serve repr
               (client_of (login Srv serve repr c s))
               (server_of (login Srv serve repr c s))) = Raise e ->
  result_of (login_and_setup Srv serve repr c s) = Raise e /\
  token (client_of (login_and_setup Srv serve repr c s))
    = token (client_of (login Srv serve repr c s)) /\
  (exists t, token (client_of (login_and_setup Srv serve repr c s)) = Some t) /\
  account_id (client_of (login_and_setup Srv serve repr c s)) = account_id c.
Proof.
  intros Hlogin Hfetch. rewrite login_and_setup_run, Hlogin.
  cbv zeta. cbn [result_of client_of].
  destruct (login_frame c s) as (_ & _ & _ & _ & Hc). rewrite Hlogin in Hc.
  destruct Hc as [t Hc].
  destruct (fetch_frame (client_of (login Srv serve repr c s))
              (server_of (login Srv serve repr c s))) as (_ & _ & _ & _ & Hc').
  rewrite Hfetch in Hc'. rewrite Hc'. split; [exact Hfetch|].
  rewrite Hc. cbn [token account_id set_token]. split_and!; eauto.
Qed.

(** C10. The fields below "data" are read without a guard.  When the login
    endpoint answers with status 200 and a JSON body whose "data" is a dict
    without "authTicket", [login] raises [KeyError], and likewise when
    "authTicket" is a dict without "token"; when the account endpoint
    answers with status 200 and a body whose "data" has no "user", or whose
    "user" has no "id", [fetch_and_hash_account_id] raises [KeyError].
    [KeyError] is not a [LibreViewAPIError]. *)
Theorem nested_fields_raise_KeyError
    (c : client) (s s' : Srv) (k : call) (r : response) (body : json)
    (d : list (string * json)) :
  serve s k = (Responded r, s') ->
  status_code r = 200 ->
  json_body r = Some body ->
  py_getitem body "data" = Return (JDict d) ->
  (hd_error (calls_of (login Srv serve repr c s)) = Some k ->
   (dict_lookup "authTicket" d = None ->
    result_of (login Srv serve repr c s) = Raise (KeyError "authTicket")) /\
   (forall t, dict_lookup "authTicket" d = Some (JDict t) ->
    dict_lookup "token" t = None ->
    result_of (login Srv serve repr c s) = Raise (KeyError "token"))) /\
  (hd_error (calls_of (fetch_and_hash_account_id Srv serve repr c s)) = Some k ->
   (dict_lookup "user" d = None ->
    result_of (fetch_and_hash_account_id Srv serve repr c s)
      = Raise (KeyError "user")) /\
   (forall u, dict_lookup "user" d = Some (JDict u) ->
    dict_lookup "id" u = None ->
    result_of (fetch_and_hash_account_id Srv serve repr c s)
      = Raise (KeyError "id"))) /\
  (forall key, is_LibreViewAPIError (KeyError key) = false).
Proof.
  intros Hs H200 Hbody Hd. split_and!; [| |reflexivity].
  - intros Hk. apply login_call in Hk. subst k.
    unfold login. run. rewrite Hs. run_step. rewrite Hbody. run_step.
    rewrite H200. cbn [Z.eqb Pos.eqb negb].
    rewrite (py_getitem_contains _ _ _ Hd). run_step. rewrite Hd. run_step.
    split.
    + intros Hnone. cbn [py_getitem]. rewrite Hnone. reflexivity.
    + intros t Ht Hnone. cbn [py_getitem]. rewrite Ht. run_step.
      cbn [py_getitem]. rewrite Hnone. reflexivity.
  - intros Hk. apply fetch_call in Hk. subst k.
    unfold fetch_and_hash_account_id. run. rewrite Hs. run_step.
    rewrite Hbody. run_step.
    rewrite H200. cbn [Z.eqb Pos.eqb negb].
    rewrite (py_getitem_contains _ _ _ Hd). run_step. rewrite Hd. run_step.
    split.
    + intros Hnone. cbn [py_getitem]. rewrite Hnone. reflexivity.
    + intros u Hu Hnone. cbn [py_getitem]. rewrite Hu. run_step.
      cbn [py_getitem]. rewrite Hnone. reflexivity.
Qed.

(** *** [request] *)

Lemma count_via_cons m (k : call) (xs : list call) :
  count_via m (k :: xs) = ((if is_via m k then 1 else 0) + count_via m xs)%nat.
Proof. unfold count_via. cbn. by destruct (is_via m k). Qed.

Lemma count_via_nil m : count_via m [] = 0%nat.
Proof. reflexivity. Qed.

Lemma count_via_zero_In m (k : call) (xs : list call) :
  count_via m xs = 0%nat -> In k xs -> is_via m k = false.
Proof.
  induction xs as [|x xs IH]; [intros _ []|].
  rewrite count_via_cons. intros Hc [->|Hin].
  - destruct (is_via m k); [discriminate|reflexivity].
  - apply IH; [|exact Hin]. destruct (is_via m x); [discriminate|exact Hc].
Qed.

(** The first call [request] makes. *)
Lemma request_first_call (method target : string) (av : option string)
    (kw : kwargs) (c : client) (s : Srv) (k : call) :
  hd_error (calls_of (request Srv serve repr method target av kw c s)) = Some k ->
  k = {| via := SessionRequest; http_method := method; url := target;
         headers := match kw_headers kw with
                    | Some extra => extra ∪ header_fields c av true true
                    | None => header_fields c av true true
                    end;
         json_payload := None;
         verify := false; call_timeout := timeout c;
         extra_kwargs := kw_rest kw |}.
Proof. unfold request. run. cases; cbn; congruence. Qed.

Ltac count_calls :=
  rewrite ?count_via_cons, ?count_via_app, ?count_via_cons, ?count_via_nil;
  cbn [is_via via].

(** C1, as the code has it.  No call of [request] goes through
    [session.request] more than twice or posts to the login endpoint more
    than once.  When the first answer has status 401, the calls [request]
    makes are: the first attempt, then those of one run of
    [login_and_setup], then, when that run returns, one more attempt with
    the same method and URL.  What this second attempt gives is the result
    of [request]: its response whatever the status, 200 or 401 alike, or the
    error of a failed transport.  When [login_and_setup] raises, [request]
    raises the same exception and makes no second attempt. *)
Theorem request_relogin_and_retry_once (method target : string)
    (av : option string) (kw : kwargs) (c : client) (s : Srv) :
  let out := request Srv serve repr method target av kw c s in
  (count_via SessionRequest (calls_of out) <= 2)%nat /\
  (count_via SessionPost (calls_of out) <= 1)%nat /\
  forall k1 r1 s1,
    hd_error (calls_of out) = Some k1 ->
    serve s k1 = (Responded r1, s1) ->
    status_code r1 = 401 ->
    let relogin := login_and_setup Srv serve repr c s1 in
    count_via SessionPost (calls_of out) = 1%nat /\
    match result_of relogin with
    | Raise e =>
        result_of out = Raise e /\
        calls_of out = k1 :: calls_of relogin /\
        count_via SessionRequest (calls_of out) = 1%nat
    | Return _ =>
        exists k2,
          calls_of out = k1 :: calls_of relogin ++ [k2] /\
          via k2 = SessionRequest /\
          http_method k2 = method /\ url k2 = target /\
          count_via SessionRequest (calls_of out) = 2%nat /\
          result_of out =
            match fst (serve (server_of relogin) k2) with
            | Responded r2 => Return r2
            | TimedOut =>
                Raise (LibreViewTimeoutError
                         ("Retry request to " +:+ target +:+ " timed out."))
            | Failed ex =>
                Raise (LibreViewAPIError
                         ("Unexpected error during retry request: " +:+ ex))
            end
    end.
Proof.
  intros out. subst out. split_and!.
  - unfold request. run. cases; count_calls; try (cbn; lia).
    all: match goal with
         | H : login_and_setup _ _ _ ?c1 ?s1 = _ |- _ =>
             destruct (login_and_setup_calls c1 s1) as [_ Hr];
             rewrite H in Hr; cbn [calls_of] in Hr; rewrite Hr
         end; cbn; lia.
  - unfold request. run. cases; count_calls; try (cbn; lia).
    all: match goal with
         | H : login_and_setup _ _ _ ?c1 ?s1 = _ |- _ =>
             destruct (login_and_setup_calls c1 s1) as [Hp _];
             rewrite H in Hp; cbn [calls_of] in Hp; rewrite Hp
         end; cbn; lia.
  - intros k1 r1 s1 Hhd Hs H401. apply request_first_call in Hhd. subst k1.
    intros relogin. subst relogin.
    destruct (login_and_setup_calls c s1) as [Hp Hr].
    unfold request. run. rewrite Hs. run_step. rewrite H401.
    cbn [Z.eqb Pos.eqb].
    destruct (login_and_setup Srv serve repr c s1) as [[[]|e] c2 s2 calls];
      cbn [calls_of result_of server_of] in *; run_step.
    + destruct (serve s2 _) as [o2 s3] eqn:E2. run_step.
      destruct o2; run_step; count_calls; rewrite Hp, Hr.
      all: split; [reflexivity|].
      all: eexists; split_and!; try reflexivity.
      all: rewrite ?count_via_app, ?count_via_cons, ?count_via_nil, ?Hr.
      all: try reflexivity.
      all: rewrite E2; reflexivity.
    + count_calls. rewrite Hp, Hr. split_and!; reflexivity.
Qed.

(** The headers of the two attempts: the caller's headers are merged into
    the first and are absent from the second. *)
Lemma request_retry_headers (method target : string) (av : option string)
    (extra : gmap string string) (rest : list (string * json))
    (c : client) (s s1 : Srv) (k1 : call) (r1 : response) :
  let out := request Srv serve repr method target av
               {| kw_headers := Some extra; kw_rest := rest |} c s in
  let relogin := login_and_setup Srv serve repr c s1 in
  hd_error (calls_of out) = Some k1 ->
  serve s k1 = (Responded r1, s1) ->
  status_code r1 = 401 ->
  result_of relogin = Return tt ->
  exists k2,
    calls_of out = k1 :: calls_of relogin ++ [k2] /\
    headers k1 = extra ∪ header_fields c av true true /\
    headers k2 = header_fields (client_of relogin) av true true.
Proof.
  intros out relogin Hhd Hs H401 Hre. subst out relogin.
  apply request_first_call in Hhd. subst k1.
  cbn [kw_headers kw_rest] in Hs. revert Hre.
  unfold request. run. rewrite Hs. run_step. rewrite H401. cbn [Z.eqb Pos.eqb].
  destruct (login_and_setup Srv serve repr c s1) as [[[]|e] c2 s2 calls];
    cbn [calls_of result_of client_of]; run_step; [intros _|discriminate].
  destruct (serve s2 _) as [o2 s3]. run_step.
  destruct o2; run_step; eexists; split_and!; reflexivity.
Qed.

(** Every call [request] makes through [session.request] has the method
    and the URL it was given; without caller's headers, its headers are
    those [get_headers] builds for the version asked. *)
Lemma request_session_calls (method target : string) (av : option string)
    (kw : kwargs) (c : client) (s : Srv) (k : call) :
  In k (calls_of (request Srv serve repr method target av kw c s)) ->
  via k = SessionRequest ->
  http_method k = method /\ url k = target /\
  (kw_headers kw = None ->
   exists c', headers k = header_fields c' av true true).
Proof.
  unfold request. run. cases.
  all: cbn [In]; rewrite ?in_app_iff; cbn [In].
  all: try match goal with
           | H : login_and_setup _ _ _ ?c1 ?s1 = _ |- _ =>
               destruct (login_and_setup_calls c1 s1) as [_ Hr];
               rewrite H in Hr; cbn [calls_of] in Hr
           end.
  all: intros Hin Hvia.
  all: repeat match goal with
              | H : _ \/ _ |- _ => destruct H as [H|H]
              | H : False |- _ => destruct H
              | Hz : count_via _ _ = 0%nat, Hv : via _ = _, H : In _ _ |- _ =>
                  apply (count_via_zero_In _ _ _ Hz) in H;
                  unfold is_via in H; rewrite Hv in H; discriminate
              end.
  all: subst k; cbn [http_method url headers]; split_and!; try reflexivity.
  all: try discriminate; intros _; eexists; reflexivity.
Qed.

(** *** [get_patient_id] *)

Lemma get_patient_id_run (c : client) (s : Srv) :
  get_patient_id Srv serve repr c s =
  bind (request Srv serve repr "GET" connections_url None no_kwargs)
       (fun response =>
          connections <-
            match json_body response with
            | Some d => ret d
            | None =>
                raise (LibreViewResponseError "Connections response was not JSON.")
            end ;;
          data <- lift (py_get connections "data") ;;
          if negb (py_truthy data) || negb (py_is_list data) || (py_len data =? 0)
          then ret JNull
          else
            first <- lift (py_getitem0 data) ;;
            has_id <- lift (py_contains "patientId" first) ;;
            if negb has_id then ret JNull
            else lift (py_get first "patientId")) c s.
Proof. reflexivity. Qed.

(** [get_patient_id] makes the calls of its [request] and no other. *)
Lemma get_patient_id_calls (c : client) (s : Srv) :
  calls_of (get_patient_id Srv serve repr c s) =
  calls_of (request Srv serve repr "GET" connections_url None no_kwargs c s).
Proof.
  rewrite get_patient_id_run, bind_run.
  destruct (request Srv serve repr "GET" connections_url None no_kwargs c s)
    as [[r|e] c' s' calls]; cbn [result_of calls_of client_of server_of];
    [|reflexivity].
  cbv zeta. run. cases; cbn [calls_of]; by rewrite ?app_nil_r.
Qed.


(** *** [get_graph_data] *)

Lemma ret_bind {A B} (a : A) (k : A -> action Srv B) c s :
  bind (ret a) k c s = k a c s.
Proof. unfold bind, ret. destruct (k a c s); reflexivity. Qed.

(** With a patient id at hand, [get_graph_data] is its [request] followed
    by the reading of the body. *)
Lemma get_graph_data_supplied (pid : json) (av : option string)
    (c : client) (s : Srv) :
  py_is_none pid = false ->
  get_graph_data Srv serve repr pid av c s =
  bind (request Srv serve repr "GET" (graph_url repr pid) av no_kwargs)
       (fun response =>
          data <-
            match json_body response with
            | Some d => ret d
            | None =>
                raise (LibreViewResponseError "Graph data response was not JSON.")
            end ;;
          has_data <- lift (py_contains "data" data) ;;
          if negb has_data
          then raise (LibreViewAPIError
                        ("No graph data returned: " +:+ py_str repr data))
          else lift (py_getitem data "data")) c s.
Proof.
  intros Hpid. unfold get_graph_data. rewrite Hpid, ret_bind. reflexivity.
Qed.

(** Without one, it first runs [get_patient_id], and goes on with the id
    found as if the caller had supplied it. *)
Lemma get_graph_data_lookup (av : option string) (c : client) (s : Srv) :
  get_graph_data Srv serve repr JNull av c s =
  match result_of (get_patient_id Srv serve repr c s) with
  | Return found =>
      if py_is_none found
      then Ran (Raise (LibreViewAPIError
                         "No patientId available to query graph data."))
               (client_of (get_patient_id Srv serve repr c s))
               (server_of (get_patient_id Srv serve repr c s))
               (calls_of (get_patient_id Srv serve repr c s))
      else
        let r := get_graph_data Srv serve repr found av
                   (client_of (get_patient_id Srv serve repr c s))
                   (server_of (get_patient_id Srv serve repr c s)) in
        Ran (result_of r) (client_of r) (server_of r)
            (calls_of (get_patient_id Srv serve repr c s) ++ calls_of r)
  | Raise e =>
      Ran (Raise e)
          (client_of (get_patient_id Srv serve repr c s))
          (server_of (get_patient_id Srv serve repr c s))
          (calls_of (get_patient_id Srv serve repr c s))
  end.
Proof.
  unfold get_graph_data at 1. cbn [py_is_none].
  rewrite bind_run, bind_run.
  destruct (get_patient_id Srv serve repr c s) as [[found|e] c1 s1 calls];
    cbn [result_of client_of server_of calls_of]; [|reflexivity].
  destruct (py_is_none found) eqn:Hfound; cbv zeta; run;
    rewrite ?app_nil_r; [reflexivity|].
  unfold get_graph_data. rewrite Hfound. rewrite ret_bind. reflexivity.
Qed.


Lemma get_graph_data_supplied_calls (pid : json) (av : option string)
    (c : client) (s : Srv) :
  py_is_none pid = false ->
  calls_of (get_graph_data Srv serve repr pid av c s) =
  calls_of (request Srv serve repr "GET" (graph_url repr pid) av no_kwargs c s).
Proof.
  intros Hpid. rewrite (get_graph_data_supplied _ _ _ _ Hpid), bind_run.
  destruct (request Srv serve repr "GET" (graph_url repr pid) av no_kwargs c s)
    as [[r|e] c' s' calls]; cbn [result_of calls_of client_of server_of];
    [|reflexivity].
  cbv zeta. run. cases; cbn [calls_of]; by rewrite ?app_nil_r.
Qed.

(** C7, as the code has it.  Called without [api_version],
    [get_graph_data] sends the graph GET with version "4.16.0", the default
    written in its own signature, whatever the default version of the
    client: every call it makes through [session.request], the lookup of
    the connections apart, is a GET on a graph URL whose [version] header
    is "4.16.0"; and with a patient id supplied, its first call is the GET
    on the graph URL of that patient. *)
Theorem get_graph_data_default_version_is_literal
    (patientId : json) (c : client) (s : Srv) :
  let out := get_graph_data Srv serve repr patientId
               (Some get_graph_data_api_version) c s in
  (forall k,
     In k (calls_of out) -> via k = SessionRequest ->
     url k <> connections_url ->
     http_method k = "GET" /\
     (exists pid, url k = graph_url repr pid) /\
     headers k !! "version" = Some "4.16.0") /\
  (py_is_none patientId = false ->
   exists k, hd_error (calls_of out) = Some k /\
     via k = SessionRequest /\ http_method k = "GET" /\
     url k = graph_url repr patientId /\
     headers k !! "version" = Some "4.16.0").
Proof.
  intros out. subst out.
  assert (Hsupplied : forall pid c0 s0 k,
    py_is_none pid = false ->
    In k (calls_of (get_graph_data Srv serve repr pid
                      (Some get_graph_data_api_version) c0 s0)) ->
    via k = SessionRequest ->
    http_method k = "GET" /\
    (exists pid, url k = graph_url repr pid) /\
    headers k !! "version" = Some "4.16.0").
  { intros pid c0 s0 k Hpid Hin Hvia.
    rewrite (get_graph_data_supplied_calls _ _ _ _ Hpid) in Hin.
    destruct (request_session_calls _ _ _ _ _ _ _ Hin Hvia)
      as (Hm & Hu & Hh).
    destruct (Hh eq_refl) as [c' Hc'].
    split_and!; [exact Hm|by eexists|].
    rewrite Hc', header_fields_version. reflexivity. }
  split.
  - intros k Hin Hvia Hurl.
    destruct (py_is_none patientId) eqn:Hpid; [|by eapply Hsupplied].
    destruct patientId; try discriminate.
    rewrite get_graph_data_lookup in Hin.
    pose proof (get_patient_id_calls c s) as Hcalls.
    assert (Hlookup :
      In k (calls_of (get_patient_id Srv serve repr c s)) -> False).
    { rewrite Hcalls. intros Hin'.
      by destruct (request_session_calls _ _ _ _ _ _ _ Hin' Hvia) as (_ & ? & _). }
    destruct (result_of (get_patient_id Srv serve repr c s)) as [found|e];
      [|by destruct Hlookup].
    destruct (py_is_none found) eqn:Hfound; [by destruct Hlookup|].
    cbv zeta in Hin. cbn [calls_of] in Hin.
    apply in_app_iff in Hin as [Hin|Hin]; [by destruct Hlookup|].
    by eapply Hsupplied.
  - intros Hpid. rewrite (get_graph_data_supplied_calls _ _ _ _ Hpid).
    destruct (calls_of (request Srv serve repr "GET" (graph_url repr patientId)
                (Some get_graph_data_api_version) no_kwargs c s))
      as [|k rest] eqn:Hc.
    + exfalso. revert Hc. unfold request. run. cases; discriminate.
    + exists k. split; [reflexivity|].
      assert (Hhd : hd_error (calls_of (request Srv serve repr "GET"
                (graph_url repr patientId) (Some get_graph_data_api_version)
                no_kwargs c s)) = Some k) by (rewrite Hc; reflexivity).
      apply request_first_call in Hhd. subst k. cbn [via http_method url headers
        kw_headers no_kwargs]. split_and!; try reflexivity.
      by rewrite header_fields_version.
Qed.

(** *** More on [login] and [fetch_and_hash_account_id] *)

(** X1. When the login endpoint answers 200 with a JSON body that has
    [data.authTicket.token], [login] returns, having made one call, and the
    token of the client is [str] of that value; no other field changes. *)
Theorem login_stores_token
    (c : client) (s s' : Srv) (k : call) (r : response)
    (body d ticket t : json) :
  hd_error (calls_of (login Srv serve repr c s)) = Some k ->
  serve s k = (Responded r, s') ->
  status_code r = 200 ->
  json_body r = Some body ->
  py_getitem body "data" = Return d ->
  py_getitem d "authTicket" = Return ticket ->
  py_getitem ticket "token" = Return t ->
  login Srv serve repr c s =
    Ran (Return tt) (set_token (Some (py_str repr t)) c) s' [k].
Proof.
  intros Hk Hs H200 Hbody Hd Ht Htok. apply login_call in Hk. subst k.
  unfold login. run. rewrite Hs. run_step. rewrite Hbody. run_step.
  rewrite H200. cbn [Z.eqb Pos.eqb negb].
  rewrite (py_getitem_contains _ _ _ Hd). run_step.
  rewrite Hd. run_step. rewrite Ht. run_step. rewrite Htok. run_step.
  reflexivity.
Qed.

(** X2. What [login] raises when it does not get a usable answer: a
    timeout gives [LibreViewTimeoutError]; another transport failure gives
    [LibreViewAPIError] with the text of the cause; a body that is not JSON
    gives [LibreViewResponseError]; a JSON answer with a status other than
    200 and 401, or a 200 dict without "data", gives [LibreViewAPIError]
    with the text of the body.  In every case the client is unchanged and
    one call was made. *)
Theorem login_failures
    (c : client) (s s' : Srv) (k : call) (o : outcome) :
  hd_error (calls_of (login Srv serve repr c s)) = Some k ->
  serve s k = (o, s') ->
  (o = TimedOut ->
   login Srv serve repr c s =
     Ran (Raise (LibreViewTimeoutError "Login request timed out.")) c s' [k]) /\
  (forall ex, o = Failed ex ->
   login Srv serve repr c s =
     Ran (Raise (LibreViewAPIError ("Unexpected error during login: " +:+ ex)))
         c s' [k]) /\
  (forall r, o = Responded r -> json_body r = None ->
   login Srv serve repr c s =
     Ran (Raise (LibreViewResponseError "Login response was not JSON."))
         c s' [k]) /\
  (forall r body, o = Responded r -> json_body r = Some body ->
   status_code r <> 401 -> status_code r <> 200 ->
   login Srv serve repr c s =
     Ran (Raise (LibreViewAPIError ("Failed to log in: " +:+ py_str repr body)))
         c s' [k]) /\
  (forall r items, o = Responded r -> json_body r = Some (JDict items) ->
   status_code r = 200 -> dict_lookup "data" items = None ->
   login Srv serve repr c s =
     Ran (Raise (LibreViewAPIError
                   ("Failed to log in: " +:+ py_str repr (JDict items))))
         c s' [k]).
Proof.
  intros Hk Hs. apply login_call in Hk. subst k.
  split_and!.
  - intros ->. unfold login. run. rewrite Hs. reflexivity.
  - intros ex ->. unfold login. run. rewrite Hs. reflexivity.
  - intros r -> Hbody. unfold login. run. rewrite Hs. run_step.
    rewrite Hbody. reflexivity.
  - intros r body -> Hbody H401 H200. unfold login. run. rewrite Hs. run_step.
    rewrite Hbody. run_step.
    destruct (Z.eqb_spec (status_code r) 401) as [|_]; [done|].
    destruct (Z.eqb_spec (status_code r) 200) as [|_]; [done|].
    reflexivity.
  - intros r items -> Hbody H200 Hnone. unfold login. run. rewrite Hs. run_step.
    rewrite Hbody. run_step. rewrite H200. cbn [Z.eqb Pos.eqb negb].
    cbn [py_contains]. rewrite Hnone. reflexivity.
Qed.

(** X3. The call [login] makes never carries credentials of the session:
    it has no [Authorization] and no [Account-Id] header, whatever token and
    account id the client holds.  It is a POST on the login URL with the
    default version of the client, a JSON content type, the email and the
    password as JSON payload, the timeout of the client, and certificate
    verification off. *)
Theorem login_call_is_unauthenticated (c : client) (s : Srv) :
  exists k,
    calls_of (login Srv serve repr c s) = [k] /\
    via k = SessionPost /\ http_method k = "POST" /\ url k = login_url c /\
    headers k !! "Authorization" = None /\
    headers k !! "Account-Id" = None /\
    headers k !! "Content-Type" = Some "application/json" /\
    headers k !! "version" = Some (default_version c) /\
    json_payload k =
      Some (JDict [("email", JStr (email c)); ("password", JStr (password c))]) /\
    call_timeout k = timeout c /\ verify k = false.
Proof.
  destruct (login_frame c s) as (k & Hk & _).
  exists k. split; [exact Hk|].
  assert (Hhd : hd_error (calls_of (login Srv serve repr c s)) = Some k)
    by (rewrite Hk; reflexivity).
  apply login_call in Hhd. subst k. cbn [via http_method url headers
    json_payload call_timeout verify].
  split_and!; try reflexivity.
  - rewrite lookup_insert_ne by done. by rewrite header_fields_authorization.
  - rewrite lookup_insert_ne by done. by rewrite header_fields_account_id.
  - by rewrite lookup_insert_eq.
  - rewrite lookup_insert_ne by done. rewrite header_fields_version.
    by destruct (str_truthy (Some (default_version c))).
Qed.

(** X4. What [fetch_and_hash_account_id] raises when it does not get a
    usable answer; a 401 is not told apart from the other statuses.  In
    every case the client is unchanged. *)
Theorem fetch_failures
    (c : client) (s s' : Srv) (k : call) (o : outcome) :
  hd_error (calls_of (fetch_and_hash_account_id Srv serve repr c s)) = Some k ->
  serve s k = (o, s') ->
  (o = TimedOut ->
   fetch_and_hash_account_id Srv serve repr c s =
     Ran (Raise (LibreViewTimeoutError "Account ID request timed out."))
         c s' [k]) /\
  (forall ex, o = Failed ex ->
   fetch_and_hash_account_id Srv serve repr c s =
     Ran (Raise (LibreViewAPIError
                   ("Unexpected error fetching account id: " +:+ ex)))
         c s' [k]) /\
  (forall r, o = Responded r -> json_body r = None ->
   fetch_and_hash_account_id Srv serve repr c s =
     Ran (Raise (LibreViewResponseError "Account ID response was not JSON."))
         c s' [k]) /\
  (forall r body, o = Responded r -> json_body r = Some body ->
   status_code r <> 200 ->
   fetch_and_hash_account_id Srv serve repr c s =
     Ran (Raise (LibreViewAPIError
                   ("Failed to get account data: " +:+ py_str repr body)))
         c s' [k]).
Proof.
  intros Hk Hs. apply fetch_call in Hk. subst k.
  split_and!.
  - intros ->. unfold fetch_and_hash_account_id. run. rewrite Hs. reflexivity.
  - intros ex ->. unfold fetch_and_hash_account_id. run. rewrite Hs.
    reflexivity.
  - intros r -> Hbody. unfold fetch_and_hash_account_id. run. rewrite Hs.
    run_step. rewrite Hbody. reflexivity.
  - intros r body -> Hbody H200. unfold fetch_and_hash_account_id. run.
    rewrite Hs. run_step. rewrite Hbody. run_step.
    destruct (Z.eqb_spec (status_code r) 200) as [|_]; [done|].
    reflexivity.
Qed.

(** *** The fields no method assigns *)

Lemma same_config_refl (c : client) : same_config c c.
Proof. unfold same_config. by split_and!. Qed.

Lemma same_config_trans (c1 c2 c3 : client) :
  same_config c1 c2 -> same_config c2 c3 -> same_config c1 c3.
Proof. unfold same_config. intros ? ?. split_and!; destruct_and!; congruence. Qed.

Lemma same_config_set_token (c : client) (t : option string) :
  same_config c (set_token t c).
Proof. unfold same_config. by split_and!. Qed.

Lemma same_config_set_account_id (c : client) (a : option string) :
  same_config c (set_account_id a c).
Proof. unfold same_config. by split_and!. Qed.

Lemma login_config (c : client) (s : Srv) :
  same_config c (client_of (login Srv serve repr c s)).
Proof.
  destruct (login_frame c s) as (_ & _ & _ & _ & H).
  destruct (result_of (login Srv serve repr c s)).
  - destruct H as [t ->]. apply same_config_set_token.
  - rewrite H. apply same_config_refl.
Qed.

Lemma fetch_config (c : client) (s : Srv) :
  same_config c (client_of (fetch_and_hash_account_id Srv serve repr c s)).
Proof.
  destruct (fetch_frame c s) as (_ & _ & _ & _ & H).
  destruct (result_of (fetch_and_hash_account_id Srv serve repr c s)).
  - destruct H as [t ->]. apply same_config_set_account_id.
  - rewrite H. apply same_config_refl.
Qed.

Lemma login_and_setup_config (c : client) (s : Srv) :
  same_config c (client_of (login_and_setup Srv serve repr c s)).
Proof.
  rewrite login_and_setup_run.
  destruct (result_of (login Srv serve repr c s)); cbv zeta; cbn [client_of].
  - eapply same_config_trans; [apply login_config|apply fetch_config].
  - apply login_config.
Qed.

(** [request] leaves the client as it is, or as the one run of
    [login_and_setup] after a 401 left it. *)
Lemma request_client (method target : string) (av : option string)
    (kw : kwargs) (c : client) (s : Srv) :
  client_of (request Srv serve repr method target av kw c s) = c \/
  exists s1, client_of (request Srv serve repr method target av kw c s)
             = client_of (login_and_setup Srv serve repr c s1).
Proof.
  unfold request. run. cases; try (left; reflexivity).
  all: right;
    match goal with
    | H : login_and_setup _ _ _ _ ?s1 = _ |- _ =>
        exists s1; rewrite H; reflexivity
    end.
Qed.

Lemma request_config (method target : string) (av : option string)
    (kw : kwargs) (c : client) (s : Srv) :
  same_config c (client_of (request Srv serve repr method target av kw c s)).
Proof.
  destruct (request_client method target av kw c s) as [->|[s1 ->]].
  - apply same_config_refl.
  - apply login_and_setup_config.
Qed.

Lemma get_patient_id_client (c : client) (s : Srv) :
  client_of (get_patient_id Srv serve repr c s) =
  client_of (request Srv serve repr "GET" connections_url None no_kwargs c s).
Proof.
  rewrite get_patient_id_run, bind_run.
  destruct (request Srv serve repr "GET" connections_url None no_kwargs c s)
    as [[r|e] c' s' calls]; cbn [result_of calls_of client_of server_of];
    [|reflexivity].
  cbv zeta. run. cases; reflexivity.
Qed.

Lemma get_graph_data_supplied_client (pid : json) (av : option string)
    (c : client) (s : Srv) :
  py_is_none pid = false ->
  client_of (get_graph_data Srv serve repr pid av c s) =
  client_of (request Srv serve repr "GET" (graph_url repr pid) av no_kwargs c s).
Proof.
  intros Hpid. rewrite (get_graph_data_supplied _ _ _ _ Hpid), bind_run.
  destruct (request Srv serve repr "GET" (graph_url repr pid) av no_kwargs c s)
    as [[r|e] c' s' calls]; cbn [result_of calls_of client_of server_of];
    [|reflexivity].
  cbv zeta. run. cases; reflexivity.
Qed.

Lemma get_patient_id_config (c : client) (s : Srv) :
  same_config c (client_of (get_patient_id Srv serve repr c s)).
Proof. rewrite get_patient_id_client. apply request_config. Qed.

Lemma get_graph_data_config (pid : json) (av : option string)
    (c : client) (s : Srv) :
  same_config c (client_of (get_graph_data Srv serve repr pid av c s)).
Proof.
  destruct (py_is_none pid) eqn:Hpid.
  - destruct pid; try discriminate. rewrite get_graph_data_lookup.
    pose proof (get_patient_id_config c s) as Hp.
    destruct (result_of (get_patient_id Srv serve repr c s)) as [found|e];
      [|exact Hp].
    destruct (py_is_none found) eqn:Hfound; [exact Hp|].
    cbv zeta. cbn [client_of]. eapply same_config_trans; [exact Hp|].
    rewrite (get_graph_data_supplied_client _ _ _ _ Hfound).
    apply request_config.
  - rewrite (get_graph_data_supplied_client _ _ _ _ Hpid).
    apply request_config.
Qed.

(** X5. No method assigns the email, the password, the default version,
    the product, the timeout or the two URLs: after [login_and_setup],
    [request], [get_patient_id] or [get_graph_data], whether it returns or
    raises, these fields are those of the client before the call. *)
Theorem methods_keep_config (c : client) (s : Srv)
    (method target : string) (av : option string) (kw : kwargs) (pid : json) :
  same_config c (client_of (login_and_setup Srv serve repr c s)) /\
  same_config c (client_of (request Srv serve repr method target av kw c s)) /\
  same_config c (client_of (get_patient_id Srv serve repr c s)) /\
  same_config c (client_of (get_graph_data Srv serve repr pid av c s)).
Proof.
  split_and!.
  - apply login_and_setup_config.
  - apply request_config.
  - apply get_patient_id_config.
  - apply get_graph_data_config.
Qed.

(** X6. When [login] and then [fetch_and_hash_account_id] return,
    [login_and_setup] returns with both the token and the account id set
    anew: two calls were made, the POST of [login] and the GET of the
    account lookup, and that GET is authenticated with the token the POST
    has just obtained, not with the one the client held before. *)
Theorem login_and_setup_refreshes_both (c : client) (s : Srv) :
  result_of (login Srv serve repr c s) = Return tt ->
  result_of (fetch_and_hash_account_id Srv serve repr
               (client_of (login Srv serve repr c s))
               (server_of (login Srv serve repr c s))) = Return tt ->
  let out := login_and_setup Srv serve repr c s in
  result_of out = Return tt /\
  exists t a k1 k2,
    client_of out = set_account_id (Some a) (set_token (Some t) c) /\
    calls_of out = [k1; k2] /\
    via k1 = SessionPost /\ via k2 = SessionGet /\
    headers k2 !! "Authorization" =
      (if String.eqb t "" then None else Some ("Bearer " +:+ t)).
Proof.
  intros Hlogin Hfetch out. subst out. rewrite login_and_setup_run, Hlogin.
  cbv zeta. cbn [result_of client_of calls_of]. split; [exact Hfetch|].
  destruct (login_frame c s) as (k1 & Hk1 & Hv1 & _ & Hc1).
  rewrite Hlogin in Hc1. destruct Hc1 as [t Hc1].
  destruct (fetch_frame (client_of (login Srv serve repr c s))
              (server_of (login Srv serve repr c s)))
    as (k2 & Hk2 & Hv2 & _ & Hc2).
  rewrite Hfetch in Hc2. destruct Hc2 as [a Hc2].
  exists t, a, k1, k2. rewrite Hc2, Hk1, Hk2, Hc1.
  split_and!; try done.
  assert (Hhd : hd_error (calls_of (fetch_and_hash_account_id Srv serve repr
                  (client_of (login Srv serve repr c s))
                  (server_of (login Srv serve repr c s)))) = Some k2)
    by (rewrite Hk2; reflexivity).
  apply fetch_call in Hhd. subst k2. cbn [headers].
  rewrite header_fields_authorization, Hc1. cbn.
  by destruct (String.eqb t "").
Qed.

(** *** More on [request] *)

(** X7. An answer whose status is not 401 is handed back as it is,
    whatever the status (a 403 or a 500 is returned, not raised): one call
    was made, no login took place and the client is unchanged. *)
Theorem request_returns_other_statuses (method target : string)
    (av : option string) (kw : kwargs) (c : client) (s s1 : Srv)
    (k1 : call) (r1 : response) :
  hd_error (calls_of (request Srv serve repr method target av kw c s))
    = Some k1 ->
  serve s k1 = (Responded r1, s1) ->
  status_code r1 <> 401 ->
  request Srv serve repr method target av kw c s = Ran (Return r1) c s1 [k1].
Proof.
  intros Hhd Hs H401. apply request_first_call in Hhd. subst k1.
  unfold request. run. rewrite Hs. run_step.
  destruct (Z.eqb_spec (status_code r1) 401) as [|_]; [done|].
  reflexivity.
Qed.

(** X8. When the first attempt fails in the transport, [request] raises
    at once: [LibreViewTimeoutError] naming the URL for a timeout,
    [LibreViewAPIError] with the text of the cause otherwise.  There is no
    second attempt and no login, and the client is unchanged. *)
Theorem request_first_attempt_failures (method target : string)
    (av : option string) (kw : kwargs) (c : client) (s s1 : Srv)
    (k1 : call) (o : outcome) :
  hd_error (calls_of (request Srv serve repr method target av kw c s))
    = Some k1 ->
  serve s k1 = (o, s1) ->
  (o = TimedOut ->
   request Srv serve repr method target av kw c s =
     Ran (Raise (LibreViewTimeoutError
                   ("Request to " +:+ target +:+ " timed out.")))
         c s1 [k1]) /\
  (forall ex, o = Failed ex ->
   request Srv serve repr method target av kw c s =
     Ran (Raise (LibreViewAPIError
                   ("Unexpected error during request: " +:+ ex)))
         c s1 [k1]).
Proof.
  intros Hhd Hs. apply request_first_call in Hhd. subst k1. split.
  - intros ->. unfold request. run. rewrite Hs. reflexivity.
  - intros ex ->. unfold request. run. rewrite Hs. reflexivity.
Qed.

(** X9. On the first attempt the headers of the caller are laid over those
    of [get_headers]: a header the caller gives is sent with the caller's
    value, also "version", "Authorization" or "Account-Id"; every other
    header is the one [get_headers] built.  The other keyword arguments,
    the method and the URL are passed on as given, with the timeout of the
    client and certificate verification off. *)
Theorem request_first_attempt_merges_headers (method target : string)
    (av : option string) (extra : gmap string string)
    (rest : list (string * json)) (c : client) (s : Srv) :
  exists k1,
    hd_error (calls_of (request Srv serve repr method target av
                          {| kw_headers := Some extra; kw_rest := rest |} c s))
      = Some k1 /\
    (forall name,
       headers k1 !! name =
       match extra !! name with
       | Some v => Some v
       | None => header_fields c av true true !! name
       end) /\
    via k1 = SessionRequest /\ http_method k1 = method /\ url k1 = target /\
    extra_kwargs k1 = rest /\ call_timeout k1 = timeout c /\ verify k1 = false.
Proof.
  destruct (calls_of (request Srv serve repr method target av
                        {| kw_headers := Some extra; kw_rest := rest |} c s))
    as [|k1 more] eqn:Hcalls.
  { exfalso. revert Hcalls. unfold request. run. cases; discriminate. }
  exists k1. split; [reflexivity|].
  assert (Hhd : hd_error (calls_of (request Srv serve repr method target av
                  {| kw_headers := Some extra; kw_rest := rest |} c s))
                = Some k1) by (rewrite Hcalls; reflexivity).
  apply request_first_call in Hhd. subst k1.
  cbn [via http_method url headers extra_kwargs call_timeout verify
       kw_headers kw_rest].
  split_and!; try reflexivity.
  intros name. rewrite lookup_union.
  destruct (extra !! name), (header_fields c av true true !! name); reflexivity.
Qed.

(** X10. After a 401 and a [login_and_setup] that returns, the second
    attempt is authenticated with what the login has just stored: its
    headers are those [get_headers] builds from the refreshed client, so
    its [Authorization] is the new token and its [Account-Id] the new
    hash.  The client [request] leaves behind is the refreshed one. *)
Theorem request_retry_uses_refreshed_client (method target : string)
    (av : option string) (kw : kwargs) (c : client) (s s1 : Srv)
    (k1 : call) (r1 : response) :
  let out := request Srv serve repr method target av kw c s in
  let relogin := login_and_setup Srv serve repr c s1 in
  hd_error (calls_of out) = Some k1 ->
  serve s k1 = (Responded r1, s1) ->
  status_code r1 = 401 ->
  result_of relogin = Return tt ->
  client_of out = client_of relogin /\
  exists k2,
    calls_of out = k1 :: calls_of relogin ++ [k2] /\
    headers k2 = header_fields (client_of relogin) av true true /\
    headers k2 !! "Authorization" =
      (if str_truthy (token (client_of relogin))
       then Some ("Bearer " +:+ format_optional (token (client_of relogin)))
       else None) /\
    headers k2 !! "Account-Id" =
      (if str_truthy (account_id (client_of relogin))
       then account_id (client_of relogin) else None) /\
    extra_kwargs k2 = kw_rest kw /\
    server_of out = snd (serve (server_of relogin) k2).
Proof.
  intros out relogin Hhd Hs H401 Hre. subst out relogin.
  apply request_first_call in Hhd. subst k1. revert Hre.
  unfold request. run. rewrite Hs. run_step. rewrite H401. cbn [Z.eqb Pos.eqb].
  destruct (login_and_setup Srv serve repr c s1) as [[[]|e] c2 s2 calls];
    cbn [calls_of result_of client_of server_of]; run_step;
    [intros _|discriminate].
  destruct (serve s2 _) as [o2 s3] eqn:E2. run_step.
  destruct o2; run_step; (split; [reflexivity|]); eexists;
    (split; [reflexivity|]); cbn [headers extra_kwargs];
    rewrite header_fields_authorization, header_fields_account_id, ?E2;
    split_and!; reflexivity.
Qed.

(** *** More on [get_patient_id] *)

(** X11. When the connections request returns a response whose JSON body
    is a dict with a non-empty list under "data" whose first element is a
    dict with "patientId", [get_patient_id] returns that value: the first
    connection decides, the others are not looked at.  The status code is
    not looked at either. *)
Theorem get_patient_id_first_connection
    (c : client) (s : Srv) (r : response) (body first : list (string * json))
    (others : list json) (pid : json) :
  result_of (request Srv serve repr "GET" connections_url None no_kwargs c s)
    = Return r ->
  json_body r = Some (JDict body) ->
  dict_lookup "data" body = Some (JList (JDict first :: others)) ->
  dict_lookup "patientId" first = Some pid ->
  result_of (get_patient_id Srv serve repr c s) = Return pid.
Proof.
  intros Hreq Hbody Hdata Hpid. rewrite get_patient_id_run, bind_run, Hreq.
  cbv zeta. cbn [result_of]. rewrite Hbody. run. cbn [py_get].
  rewrite Hdata. run_step. cbn. rewrite Hpid. reflexivity.
Qed.

(** X12. What [get_patient_id] raises: the exception of its request,
    unchanged; [LibreViewResponseError] for a body that is not JSON; and,
    outside the client's own error classes, [AttributeError] for a JSON
    body that is not a dict and [TypeError] for a first connection that is
    [None], a boolean or a number. *)
Theorem get_patient_id_failures (c : client) (s : Srv) :
  (forall e,
     result_of (request Srv serve repr "GET" connections_url None no_kwargs c s)
       = Raise e ->
     result_of (get_patient_id Srv serve repr c s) = Raise e) /\
  (forall r,
     result_of (request Srv serve repr "GET" connections_url None no_kwargs c s)
       = Return r ->
     (json_body r = None ->
      result_of (get_patient_id Srv serve repr c s) =
        Raise (LibreViewResponseError "Connections response was not JSON.")) /\
     (forall body, json_body r = Some body ->
        (forall items, body <> JDict items) ->
        result_of (get_patient_id Srv serve repr c s) = Raise AttributeError) /\
     (forall body first others,
        json_body r = Some (JDict body) ->
        dict_lookup "data" body = Some (JList (first :: others)) ->
        py_contains "patientId" first = Raise TypeError ->
        result_of (get_patient_id Srv serve repr c s) = Raise TypeError)) /\
  is_LibreViewAPIError AttributeError = false /\
  is_LibreViewAPIError TypeError = false.
Proof.
  split_and!; try reflexivity.
  - intros e Hreq. rewrite get_patient_id_run, bind_run, Hreq. reflexivity.
  - intros r Hreq. split_and!.
    + intros Hbody. rewrite get_patient_id_run, bind_run, Hreq.
      cbv zeta. cbn [result_of]. rewrite Hbody. reflexivity.
    + intros body Hbody Hnot. rewrite get_patient_id_run, bind_run, Hreq.
      cbv zeta. cbn [result_of]. rewrite Hbody. run.
      destruct body; try reflexivity. by destruct (Hnot items).
    + intros body first others Hbody Hdata Hc.
      rewrite get_patient_id_run, bind_run, Hreq.
      cbv zeta. cbn [result_of]. rewrite Hbody. run. cbn [py_get].
      rewrite Hdata. run_step. cbn [py_truthy py_is_list py_len negb orb].
      replace (Z.of_nat (length (first :: others)) =? 0) with false
        by (symmetry; apply Z.eqb_neq; cbn [length]; lia).
      cbn [py_getitem0]. run_step. rewrite Hc. reflexivity.
Qed.

(** *** More on [get_graph_data] *)

(** The version sent by the calls [request] makes through
    [session.request], when the caller gives no headers. *)
Lemma request_session_calls_version (method target : string)
    (av : option string) (rest : list (string * json))
    (c : client) (s : Srv) (k : call) :
  In k (calls_of (request Srv serve repr method target av
                    {| kw_headers := None; kw_rest := rest |} c s)) ->
  via k = SessionRequest ->
  headers k !! "version" =
    Some (match av with
          | Some v => if str_truthy (Some v) then v else default_version c
          | None => default_version c
          end).
Proof.
  remember (match av with
            | Some v => if str_truthy (Some v) then v else default_version c
            | None => default_version c
            end) as expected eqn:Hexp.
  unfold request. run. cases.
  all: cbn [In]; rewrite ?in_app_iff; cbn [In].
  all: try match goal with
           | H : login_and_setup _ _ _ ?c1 ?s1 = _ |- _ =>
               destruct (login_and_setup_calls c1 s1) as [_ Hr];
               pose proof (login_and_setup_config c1 s1) as Hcfg;
               rewrite H in Hr, Hcfg; cbn [calls_of client_of] in Hr, Hcfg;
               destruct Hcfg as (_ & _ & Hdv & _)
           end.
  all: intros Hin Hvia.
  all: repeat match goal with
              | H : _ \/ _ |- _ => destruct H as [H|H]
              | H : False |- _ => destruct H
              | Hz : count_via _ _ = 0%nat, Hv : via _ = _, H : In _ _ |- _ =>
                  apply (count_via_zero_In _ _ _ Hz) in H;
                  unfold is_via in H; rewrite Hv in H; discriminate
              end.
  all: subst k expected; cbn [headers];
    rewrite header_fields_version, ?Hdv; reflexivity.
Qed.

(** X13. [get_graph_data] sends its graph GET with the [api_version] it
    is given; when that is [None] or the empty string, every call it makes
    through [session.request] carries the default version of the client
    instead. *)
Theorem get_graph_data_version (patientId : json) (av : option string)
    (c : client) (s : Srv) (k : call) :
  In k (calls_of (get_graph_data Srv serve repr patientId av c s)) ->
  via k = SessionRequest ->
  (url k <> connections_url ->
   headers k !! "version" =
     Some (match av with
           | Some v => if String.eqb v "" then default_version c else v
           | None => default_version c
           end)) /\
  (av = None \/ av = Some "" ->
   headers k !! "version" = Some (default_version c)).
Proof.
  intros Hin Hvia.
  assert (Hsupplied : forall pid c0 s0,
    py_is_none pid = false ->
    In k (calls_of (get_graph_data Srv serve repr pid av c0 s0)) ->
    headers k !! "version" =
      Some (match av with
            | Some v => if String.eqb v "" then default_version c0 else v
            | None => default_version c0
            end)).
  { intros pid c0 s0 Hpid Hin0.
    rewrite (get_graph_data_supplied_calls _ _ _ _ Hpid) in Hin0.
    rewrite (request_session_calls_version _ _ _ _ _ _ _ Hin0 Hvia).
    destruct av as [v|]; [|reflexivity]. cbn. by destruct (String.eqb v ""). }
  assert (Hlookup :
    In k (calls_of (get_patient_id Srv serve repr c s)) ->
    url k = connections_url /\
    headers k !! "version" = Some (default_version c)).
  { rewrite get_patient_id_calls. intros Hin0. split.
    - by destruct (request_session_calls _ _ _ _ _ _ _ Hin0 Hvia) as (_ & ? & _).
    - by rewrite (request_session_calls_version _ _ _ _ _ _ _ Hin0 Hvia). }
  assert (Hall :
    (url k = connections_url /\
     headers k !! "version" = Some (default_version c)) \/
    headers k !! "version" =
      Some (match av with
            | Some v => if String.eqb v "" then default_version c else v
            | None => default_version c
            end)).
  { destruct (py_is_none patientId) eqn:Hpid; [|right; by eapply Hsupplied].
    destruct patientId; try discriminate.
    rewrite get_graph_data_lookup in Hin.
    pose proof (get_patient_id_config c s) as (_ & _ & Hdv & _).
    destruct (result_of (get_patient_id Srv serve repr c s)) as [found|e];
      [|left; by apply Hlookup].
    destruct (py_is_none found) eqn:Hfound; [left; by apply Hlookup|].
    cbv zeta in Hin. cbn [calls_of] in Hin.
    apply in_app_iff in Hin as [Hin|Hin]; [left; by apply Hlookup|].
    right. rewrite (Hsupplied _ _ _ Hfound Hin), Hdv. reflexivity. }
  split.
  - intros Hurl. destruct Hall as [[? _]|H]; [done|exact H].
  - intros Hav. destruct Hall as [[_ H]|H]; [exact H|].
    rewrite H. by destruct Hav as [->| ->].
Qed.

(** X14. What [get_graph_data] raises besides the two errors of its own:
    an exception of the patient lookup leaves it unchanged, and then no
    graph request is made; with a patient id, an exception of the graph
    request leaves it unchanged, a body that is not JSON gives
    [LibreViewResponseError], and a JSON body that is [None], a boolean or
    a number gives [TypeError]. *)
Theorem get_graph_data_failures (av : option string) (c : client) (s : Srv) :
  (forall e,
     result_of (get_patient_id Srv serve repr c s) = Raise e ->
     result_of (get_graph_data Srv serve repr JNull av c s) = Raise e /\
     calls_of (get_graph_data Srv serve repr JNull av c s)
       = calls_of (get_patient_id Srv serve repr c s)) /\
  (forall pid, py_is_none pid = false ->
     (forall e,
        result_of (request Srv serve repr "GET" (graph_url repr pid) av
                     no_kwargs c s) = Raise e ->
        result_of (get_graph_data Srv serve repr pid av c s) = Raise e) /\
     (forall r,
        result_of (request Srv serve repr "GET" (graph_url repr pid) av
                     no_kwargs c s) = Return r ->
        (json_body r = None ->
         result_of (get_graph_data Srv serve repr pid av c s) =
           Raise (LibreViewResponseError "Graph data response was not JSON.")) /\
        (forall body, json_body r = Some body ->
           py_contains "data" body = Raise TypeError ->
           result_of (get_graph_data Srv serve repr pid av c s)
             = Raise TypeError))).
Proof.
  split.
  - intros e He. rewrite get_graph_data_lookup, He. split; reflexivity.
  - intros pid Hpid. split.
    + intros e He.
      rewrite (get_graph_data_supplied _ _ _ _ Hpid), bind_run, He.
      reflexivity.
    + intros r Hr. split.
      * intros Hbody.
        rewrite (get_graph_data_supplied _ _ _ _ Hpid), bind_run, Hr.
        cbv zeta. cbn [result_of]. rewrite Hbody. reflexivity.
      * intros body Hbody Hc.
        rewrite (get_graph_data_supplied _ _ _ _ Hpid), bind_run, Hr.
        cbv zeta. cbn [result_of]. rewrite Hbody. run. rewrite Hc. reflexivity.
Qed.

(** X15. Called without a patient id, when [get_patient_id] returns an
    id, [get_graph_data] makes the calls of the lookup and then those of
    the request on the graph URL of the id found, run on the client and the
    service as the lookup left them.  The URL holds [str] of the id: the
    text of a string, the decimal digits of an integer. *)
Theorem get_graph_data_looks_up_then_requests
    (av : option string) (c : client) (s : Srv) (found : json) :
  result_of (get_patient_id Srv serve repr c s) = Return found ->
  py_is_none found = false ->
  calls_of (get_graph_data Srv serve repr JNull av c s) =
    (calls_of (get_patient_id Srv serve repr c s) ++
     calls_of (request Srv serve repr "GET" (graph_url repr found) av no_kwargs
                 (client_of (get_patient_id Srv serve repr c s))
                 (server_of (get_patient_id Srv serve repr c s))))%list /\
  (forall p, found = JStr p ->
     graph_url repr found =
       "https://api.libreview.io/llu/connections/" +:+ p +:+ "/graph") /\
  (forall n, found = JInt n ->
     graph_url repr found =
       "https://api.libreview.io/llu/connections/" +:+
       NilZero.string_of_int (Z.to_int n) +:+ "/graph").
Proof.
  intros Hp Hfound. split_and!.
  - rewrite get_graph_data_lookup, Hp, Hfound. cbv zeta. cbn [calls_of].
    by rewrite (get_graph_data_supplied_calls _ _ _ _ Hfound).
  - intros p ->. reflexivity.
  - intros n ->. reflexivity.
Qed.

(** *** Creating the client *)

(** X16. Creating a client runs [login_and_setup] on an object whose
    token and account id are unset.  The object keeps the email, password,
    default version, product and timeout it was given and the two fixed
    URLs; when the creation succeeds both its token and its account id
    are set, and when it fails no account id was stored. *)
Theorem init_sets_up_session (email0 password0 dv product0 : string)
    (timeout0 : Z) (s : Srv) :
  let out := init Srv serve repr email0 password0 dv product0 timeout0 s in
  email (client_of out) = email0 /\ password (client_of out) = password0 /\
  default_version (client_of out) = dv /\ product (client_of out) = product0 /\
  timeout (client_of out) = timeout0 /\
  login_url (client_of out) = "https://api.libreview.io/llu/auth/login" /\
  account_url (client_of out) = "https://api-us.libreview.io/account" /\
  (result_of out = Return tt ->
   exists t a, token (client_of out) = Some t /\
               account_id (client_of out) = Some a) /\
  (forall e, result_of out = Raise e -> account_id (client_of out) = None).
Proof.
  intros out. subst out. unfold init.
  set (c0 := {| email := email0; password := password0;
                default_version := dv; product := product0;
                timeout := timeout0; token := None; account_id := None;
                login_url := "https://api.libreview.io/llu/auth/login";
                account_url := "https://api-us.libreview.io/account" |}).
  pose proof (login_and_setup_config c0 s) as (? & ? & ? & ? & ? & ? & ?).
  split_and!; try done.
  - rewrite login_and_setup_run.
    destruct (login_frame c0 s) as (_ & _ & _ & _ & Hc1).
    destruct (result_of (login Srv serve repr c0 s)); [|discriminate].
    destruct Hc1 as [t Hc1]. cbv zeta. cbn [result_of client_of].
    destruct (fetch_frame (client_of (login Srv serve repr c0 s))
                (server_of (login Srv serve repr c0 s)))
      as (_ & _ & _ & _ & Hc2).
    intros Hres. rewrite Hres in Hc2. destruct Hc2 as [acc Hc2].
    exists t, acc. rewrite Hc2, Hc1. split; reflexivity.
  - intros e. rewrite login_and_setup_run.
    destruct (login_frame c0 s) as (_ & _ & _ & _ & Hc1).
    destruct (result_of (login Srv serve repr c0 s)).
    + destruct Hc1 as [t Hc1]. cbv zeta. cbn [result_of client_of].
      destruct (fetch_frame (client_of (login Srv serve repr c0 s))
                  (server_of (login Srv serve repr c0 s)))
        as (_ & _ & _ & _ & Hc2).
      intros Hres. rewrite Hres in Hc2. rewrite Hc2, Hc1. reflexivity.
    + cbn [result_of client_of]. intros _. rewrite Hc1. reflexivity.
Qed.

(** *** The shape of the account id *)

Lemma round_length (st : list Z) (kw : Z * Z) :
  length (SHA256.round st kw) = length st.
Proof.
  unfold SHA256.round.
  do 9 (destruct st as [|? st]; try reflexivity).
Qed.

Lemma fold_round_length (kws : list (Z * Z)) (st : list Z) :
  length (fold_left SHA256.round kws st) = length st.
Proof.
  revert st. induction kws as [|kw kws IH]; intros st; [reflexivity|].
  cbn [fold_left]. by rewrite IH, round_length.
Qed.

Lemma zip_add_length (xs ys : list Z) :
  length xs = length ys -> length (SHA256.zip_add xs ys) = length xs.
Proof.
  revert ys. induction xs as [|x xs IH]; intros [|y ys] Hlen;
    try discriminate; [reflexivity|].
  cbn [SHA256.zip_add length]. f_equal. apply IH. by injection Hlen.
Qed.

Lemma compress_length (h block : list Z) :
  length (SHA256.compress h block) = length h.
Proof.
  unfold SHA256.compress. apply zip_add_length.
  by rewrite fold_round_length.
Qed.

Lemma blocks_length (n : nat) (ws h : list Z) :
  length (SHA256.blocks n ws h) = length h.
Proof.
  revert ws h. induction n as [|n IH]; intros ws h; [reflexivity|].
  cbn [SHA256.blocks]. destruct ws; [reflexivity|].
  by rewrite IH, compress_length.
Qed.

Lemma be_bytes_length (n : nat) (x : Z) : length (SHA256.be_bytes n x) = n.
Proof. induction n as [|n IH]; [reflexivity|]. cbn. by rewrite IH. Qed.

Lemma be_bytes_range (n : nat) (x b : Z) :
  In b (SHA256.be_bytes n x) -> 0 <= b < 256.
Proof.
  induction n as [|n IH]; [intros []|].
  cbn [SHA256.be_bytes In]. intros [<-|Hin]; [|by apply IH].
  change 0xFF with (Z.ones 8). rewrite Z.land_ones by lia.
  apply Z.mod_pos_bound. lia.
Qed.

Lemma digest_length (msg : list Z) : length (SHA256.digest msg) = 32%nat.
Proof.
  unfold SHA256.digest. cbv zeta.
  assert (Hflat : forall l : list Z,
            length (flat_map (SHA256.be_bytes 4) l) = (4 * length l)%nat).
  { induction l as [|w l IH]; [reflexivity|].
    cbn [flat_map]. rewrite List.length_app, be_bytes_length, IH.
    cbn [length]. lia. }
  rewrite Hflat, blocks_length. reflexivity.
Qed.

Lemma digest_range (msg : list Z) (b : Z) :
  In b (SHA256.digest msg) -> 0 <= b < 256.
Proof.
  unfold SHA256.digest. cbv zeta. rewrite in_flat_map.
  intros (w & _ & Hin). by eapply be_bytes_range.
Qed.

Lemma hex_digit_lower_hex (d : Z) :
  0 <= d < 16 ->
  str_contains (String (SHA256.hex_digit d) EmptyString) "0123456789abcdef"
    = true.
Proof.
  intros Hd.
  assert (Hcases : d = 0 \/ d = 1 \/ d = 2 \/ d = 3 \/ d = 4 \/ d = 5 \/
                   d = 6 \/ d = 7 \/ d = 8 \/ d = 9 \/ d = 10 \/ d = 11 \/
                   d = 12 \/ d = 13 \/ d = 14 \/ d = 15) by lia.
  repeat (destruct Hcases as [->|Hcases]; [reflexivity|]).
  subst d. reflexivity.
Qed.

Lemma hex_shape (bs : list Z) :
  (forall b, In b bs -> 0 <= b < 256) ->
  String.length (SHA256.hex bs) = (2 * length bs)%nat /\
  all_lower_hex (SHA256.hex bs) = true.
Proof.
  induction bs as [|b bs IH]; intros Hrange; [split; reflexivity|].
  destruct IH as [IHlen IHhex]; [intros x Hx; apply Hrange; by right|].
  assert (Hb : 0 <= b < 256) by (apply Hrange; by left).
  cbn [SHA256.hex String.length all_lower_hex length]. split; [lia|].
  rewrite IHhex, !hex_digit_lower_hex; [reflexivity| |].
  - change 0xF with (Z.ones 4). rewrite Z.land_ones by lia.
    apply Z.mod_pos_bound. lia.
  - rewrite Z.shiftr_div_pow2 by lia. change (2 ^ 4) with 16.
    split; [apply Z.div_pos; lia|apply Z.div_lt_upper_bound; lia].
Qed.

Lemma hexdigest_shape (s : string) :
  String.length (SHA256.hexdigest s) = 64%nat /\
  all_lower_hex (SHA256.hexdigest s) = true.
Proof.
  unfold SHA256.hexdigest.
  destruct (hex_shape (SHA256.digest (SHA256.bytes_of_string s)))
    as [Hlen Hhex]; [apply digest_range|].
  by rewrite Hlen, digest_length.
Qed.

(** The account id [fetch_and_hash_account_id] stores is a digest. *)
Lemma fetch_stores_digest (c : client) (s : Srv) :
  result_of (fetch_and_hash_account_id Srv serve repr c s) = Return tt ->
  exists raw,
    client_of (fetch_and_hash_account_id Srv serve repr c s)
      = set_account_id (Some (SHA256.hexdigest raw)) c.
Proof.
  unfold fetch_and_hash_account_id. run. cases; try discriminate.
  intros _. eexists. reflexivity.
Qed.

(** X17. Whenever [fetch_and_hash_account_id] returns, the account id it
    has stored is 64 characters long, each one of [0-9a-f], whatever id the
    service sent; being non-empty, it will be sent as [Account-Id] by every
    later call that asks for it.  The token is the one before the call. *)
Theorem fetch_stores_64_hex_digits (c : client) (s : Srv) :
  result_of (fetch_and_hash_account_id Srv serve repr c s) = Return tt ->
  exists a,
    account_id (client_of (fetch_and_hash_account_id Srv serve repr c s))
      = Some a /\
    String.length a = 64%nat /\ all_lower_hex a = true /\
    str_truthy (Some a) = true /\
    token (client_of (fetch_and_hash_account_id Srv serve repr c s)) = token c.
Proof.
  intros Hres. destruct (fetch_stores_digest c s Hres) as [raw ->].
  destruct (hexdigest_shape raw) as [Hlen Hhex].
  eexists. split; [reflexivity|]. split_and!; try done.
  cbn. destruct (SHA256.hexdigest raw); [discriminate|reflexivity].
Qed.

(** *** How many calls *)

Lemma request_call_bounds (method target : string) (av : option string)
    (kw : kwargs) (c : client) (s : Srv) :
  (1 <= count_via SessionRequest
          (calls_of (request Srv serve repr method target av kw c s)) <= 2)%nat /\
  (count_via SessionPost
     (calls_of (request Srv serve repr method target av kw c s)) <= 1)%nat.
Proof.
  split.
  - unfold request. run. cases; count_calls; try (cbn; lia).
    all: match goal with
         | H : login_and_setup _ _ _ ?c1 ?s1 = _ |- _ =>
             destruct (login_and_setup_calls c1 s1) as [_ Hr];
             rewrite H in Hr; cbn [calls_of] in Hr; rewrite Hr
         end; cbn; lia.
  - unfold request. run. cases; count_calls; try (cbn; lia).
    all: match goal with
         | H : login_and_setup _ _ _ ?c1 ?s1 = _ |- _ =>
             destruct (login_and_setup_calls c1 s1) as [Hp _];
             rewrite H in Hp; cbn [calls_of] in Hp; rewrite Hp
         end; cbn; lia.
Qed.

Lemma get_graph_data_calls_bounded (patientId : json) (av : option string)
    (c : client) (s : Srv) :
  let made := calls_of (get_graph_data Srv serve repr patientId av c s) in
  (1 <= count_via SessionRequest made <= 4)%nat /\
  (count_via SessionPost made <= 2)%nat /\
  (py_is_none patientId = false ->
   (count_via SessionRequest made <= 2)%nat /\
   (count_via SessionPost made <= 1)%nat) /\
  (py_is_none patientId = true ->
   exists k, hd_error made = Some k /\ via k = SessionRequest /\
     http_method k = "GET" /\ url k = connections_url).
Proof.
  intros made. subst made.
  assert (Hsupplied : forall pid c0 s0, py_is_none pid = false ->
    (1 <= count_via SessionRequest
            (calls_of (get_graph_data Srv serve repr pid av c0 s0)) <= 2)%nat /\
    (count_via SessionPost
       (calls_of (get_graph_data Srv serve repr pid av c0 s0)) <= 1)%nat).
  { intros pid c0 s0 Hpid.
    rewrite (get_graph_data_supplied_calls _ _ _ _ Hpid).
    apply request_call_bounds. }
  pose proof (request_call_bounds "GET" connections_url None no_kwargs c s)
    as [Hlr Hlp].
  rewrite <- get_patient_id_calls in Hlr, Hlp.
  destruct (py_is_none patientId) eqn:Hpid.
  - destruct patientId; try discriminate.
    assert (Hfirst : exists k,
      hd_error (calls_of (get_patient_id Srv serve repr c s)) = Some k /\
      via k = SessionRequest /\ http_method k = "GET" /\
      url k = connections_url).
    { rewrite get_patient_id_calls.
      destruct (calls_of (request Srv serve repr "GET" connections_url None
                            no_kwargs c s)) as [|k more] eqn:Hc.
      - exfalso. revert Hc. unfold request. run. cases; discriminate.
      - exists k. split; [reflexivity|].
        assert (Hhd : hd_error (calls_of (request Srv serve repr "GET"
                        connections_url None no_kwargs c s)) = Some k)
          by (rewrite Hc; reflexivity).
        apply request_first_call in Hhd. subst k. by split_and!. }
    rewrite get_graph_data_lookup.
    destruct (result_of (get_patient_id Srv serve repr c s)) as [found|e];
      cbn [calls_of].
    + destruct (py_is_none found) eqn:Hfound; cbv zeta; cbn [calls_of].
      * split_and!; try lia; try done.
      * destruct (Hsupplied found
                    (client_of (get_patient_id Srv serve repr c s))
                    (server_of (get_patient_id Srv serve repr c s)) Hfound)
          as [Hgr Hgp].
        rewrite !count_via_app. split_and!; try lia; try done.
        intros _. destruct Hfirst as (k & Hk & Hrest).
        exists k. split; [|exact Hrest].
        destruct (calls_of (get_patient_id Srv serve repr c s));
          [discriminate|exact Hk].
    + split_and!; try lia; try done.
  - destruct (Hsupplied patientId c s Hpid) as [Hgr Hgp].
    split_and!; try lia; try done.
Qed.

(** X23. One [get_graph_data] never goes through [session.request] more
    than four times nor logs in more than twice (twice and once with a
    patient id supplied), and it always makes at least one request.
    Without a patient id its first call is the GET on the connections URL:
    the id is looked up anew, it is not kept from one call to the next. *)
Theorem get_graph_data_call_bounds (patientId : json) (av : option string)
    (c : client) (s : Srv) :
  let made := calls_of (get_graph_data Srv serve repr patientId av c s) in
  (1 <= count_via SessionRequest made <= 4)%nat /\
  (count_via SessionPost made <= 2)%nat /\
  (py_is_none patientId = false ->
   (count_via SessionRequest made <= 2)%nat /\
   (count_via SessionPost made <= 1)%nat) /\
  (py_is_none patientId = true ->
   exists k, hd_error made = Some k /\ via k = SessionRequest /\
     http_method k = "GET" /\ url k = connections_url).
Proof. apply get_graph_data_calls_bounded. Qed.

End Properties.

(** * Properties of the console *)

Section ConsoleProperties.

Variable Srv : Type.
Variable serve : Srv -> call -> outcome * Srv.
Variable repr : json -> string.
Variable figlet_format : string -> string -> string.
Variable splitlines : string -> list string.
Variable center : string -> Z -> string.
Variable terminal_columns : option Z.
Variable chicago_time : string -> console_result string.

Abbreviation draw :=
  (print_blood_sugar repr figlet_format splitlines center terminal_columns
     chicago_time).
Abbreviation refresh :=
  (update_graph_data Srv serve repr figlet_format splitlines center
     terminal_columns chicago_time).
Abbreviation width := (get_terminal_width terminal_columns).
Abbreviation title_lines :=
  (print_centered splitlines center
     (figlet_format "Blood Sugar Console" "small") width None).

(** *** The colour of a reading *)

(** X18. The colour of a number [x / d] (an integer [n] is [n / 1], a
    float [m * 2^e] has [d] a power of two): red above 200 and below 70,
    green from 80 to 180 with both ends, yellow in between, that is above
    180 up to 200 and from 70 up to but not 80.  So 180 is green, 200 is
    yellow, 70 is yellow and 80 is green. *)
Theorem blood_sugar_color_bands (value : json) (m e : Z) :
  py_number value = Some (m, e) ->
  let x := m * 2 ^ Z.max 0 e in
  let d := 2 ^ Z.max 0 (- e) in
  (get_blood_sugar_color value = Return RED <-> 200 * d < x \/ x < 70 * d) /\
  (get_blood_sugar_color value = Return GREEN <-> 80 * d <= x <= 180 * d) /\
  (get_blood_sugar_color value = Return YELLOW <->
     180 * d < x <= 200 * d \/ 70 * d <= x < 80 * d).
Proof.
  intros Hnum x d. subst x d. unfold get_blood_sugar_color. rewrite Hnum.
  cbv zeta. unfold compare_int.
  destruct (Z.leb_spec 0 e) as [He|He].
  - rewrite (Z.max_r 0 e), (Z.max_l 0 (- e)) by lia.
    change (2 ^ 0) with 1. remember (m * 2 ^ e) as x eqn:Hx. clear Hx.
    destruct (Z.compare_spec x 200), (Z.compare_spec x 180),
      (Z.compare_spec x 80), (Z.compare_spec x 70);
      cbn; split_and!; split; intros Hgoal; try discriminate Hgoal;
      try lia; try reflexivity.
  - rewrite (Z.max_l 0 e), (Z.max_r 0 (- e)) by lia.
    change (2 ^ 0) with 1. rewrite Z.mul_1_r.
    assert (Hd : 0 < 2 ^ (- e)) by (apply Z.pow_pos_nonneg; lia).
    remember (2 ^ (- e)) as d eqn:Hdd. clear Hdd.
    destruct (Z.compare_spec m (200 * d)), (Z.compare_spec m (180 * d)),
      (Z.compare_spec m (80 * d)), (Z.compare_spec m (70 * d));
      cbn; split_and!; split; intros Hgoal; try discriminate Hgoal;
      try lia; try reflexivity.
Qed.

(** *** [print_blood_sugar] *)

Ltac draw_step :=
  unfold print_blood_sugar, console_bind, emit, of_result, console_ret.

Lemma lookup_some_nonempty (k : string) (items : list (string * json)) (v : json) :
  dict_lookup k items = Some v -> py_truthy (JDict items) = true.
Proof. destruct items; [discriminate|reflexivity]. Qed.

(** X19. With nothing to show, [print_blood_sugar] clears the screen,
    prints the title and the line that asks to wait, and returns: so it
    does when [graph_data] is [None] or another false value, when it is a
    dict without "graphData", and when its "graphData" is the empty list. *)
Theorem print_blood_sugar_waits (graph_data : json) :
  py_truthy graph_data = false \/
  (exists items, graph_data = JDict items /\
     (dict_lookup "graphData" items = None \/
      dict_lookup "graphData" items = Some (JList []))) ->
  draw graph_data =
    (Done tt,
     (ClearScreen :: title_lines ++
      [Print (newline +:+
              center "Waiting for the applicaiton to fetch updated results ..."
                     width
              +:+ newline)])%list).
Proof.
  intros [Hfalse|(items & -> & [Hnone|Hempty])]; draw_step.
  - rewrite Hfalse. reflexivity.
  - destruct items as [|item items]; [reflexivity|].
    cbn [py_truthy py_contains]. rewrite Hnone. reflexivity.
  - rewrite (lookup_some_nonempty _ _ _ Hempty). cbn [py_contains py_getitem].
    rewrite Hempty. reflexivity.
Qed.

Lemma draw_last
    (items : list (string * json)) (earlier : list json) (latest : json) :
  dict_lookup "graphData" items = Some (JList (earlier ++ [latest])) ->
  draw (JDict items) = draw (JDict [("graphData", JList [latest])]).
Proof.
  intros Hdata. draw_step.
  rewrite (lookup_some_nonempty _ _ _ Hdata). cbn [py_contains py_getitem].
  rewrite Hdata. cbn [py_len_of py_getitem_last].
  rewrite rev_app_distr. cbn [rev app].
  replace (0 <? Z.of_nat (length (earlier ++ [latest]))) with true
    by (symmetry; apply Z.ltb_lt; rewrite List.length_app; cbn; lia).
  reflexivity.
Qed.

(** X20. Only the last reading counts: with a "graphData" list that ends
    with [latest], [print_blood_sugar] does what it does on the list that
    holds [latest] alone, whatever the earlier readings are and whether it
    returns or crashes. *)
Theorem print_blood_sugar_reads_last
    (items : list (string * json)) (earlier : list json) (latest : json) :
  dict_lookup "graphData" items = Some (JList (earlier ++ [latest])) ->
  draw (JDict items) = draw (JDict [("graphData", JList [latest])]).
Proof. apply draw_last. Qed.

(** X21. A last reading that is a dict with a "FactoryTimestamp" string
    the clock accepts and a numeric "Value" is drawn in this order: the
    screen is cleared, the title is printed, then an empty line, then the
    figure of [str(Value)], each line between the colour of the value and
    the reset code, then the line with the local time. *)
Theorem print_blood_sugar_draws_reading
    (items reading : list (string * json)) (earlier : list json)
    (text shown_time : string) (value : json) (color : fore) :
  dict_lookup "graphData" items = Some (JList (earlier ++ [JDict reading])) ->
  dict_lookup "FactoryTimestamp" reading = Some (JStr text) ->
  chicago_time text = Done shown_time ->
  dict_lookup "Value" reading = Some value ->
  get_blood_sugar_color value = Return color ->
  draw (JDict items) =
    (Done tt,
     (ClearScreen :: title_lines ++
      Print "" ::
      map (fun line => Print (fore_code color +:+ center line width
                              +:+ reset_all))
          (splitlines (figlet_format (py_str repr value) "big")) ++
      [Print (center ("This reading was captured at: " +:+ shown_time +:+ ".")
                     width)])%list).
Proof.
  intros Hdata Hstamp Htime Hvalue Hcolor.
  rewrite (draw_last _ _ _ Hdata). draw_step.
  cbn [py_truthy py_contains py_getitem dict_lookup String.eqb Ascii.eqb
       Bool.eqb py_len_of py_getitem_last length rev app Z.of_nat Z.ltb
       Z.compare Pos.of_succ_nat].
  rewrite Hstamp, Htime, Hvalue, Hcolor. cbn [app fst snd].
  unfold print_centered. rewrite ?app_nil_r. reflexivity.
Qed.

(** X22. A last reading the display cannot use makes [print_blood_sugar]
    raise after the title, with nothing of the reading drawn: [KeyError]
    without "FactoryTimestamp" or without "Value", [TypeError] for a
    timestamp that is not a string or a value that is not a number, and the
    exception of the clock for a timestamp it refuses.  None of them is a
    [LibreViewAPIError]. *)
Theorem print_blood_sugar_crashes
    (items reading : list (string * json)) (earlier : list json) :
  dict_lookup "graphData" items = Some (JList (earlier ++ [JDict reading])) ->
  (dict_lookup "FactoryTimestamp" reading = None ->
   draw (JDict items) =
     (Crashed (ClientError (KeyError "FactoryTimestamp")),
      ClearScreen :: title_lines)) /\
  (forall stamp, dict_lookup "FactoryTimestamp" reading = Some stamp ->
     (forall text, stamp <> JStr text) ->
     draw (JDict items) =
       (Crashed (ClientError TypeError), ClearScreen :: title_lines)) /\
  (forall text e, dict_lookup "FactoryTimestamp" reading = Some (JStr text) ->
     chicago_time text = Crashed e ->
     draw (JDict items) = (Crashed e, ClearScreen :: title_lines)) /\
  (forall text shown_time,
     dict_lookup "FactoryTimestamp" reading = Some (JStr text) ->
     chicago_time text = Done shown_time ->
     (dict_lookup "Value" reading = None ->
      draw (JDict items) =
        (Crashed (ClientError (KeyError "Value")), ClearScreen :: title_lines)) /\
     (forall value, dict_lookup "Value" reading = Some value ->
        py_number value = None ->
        draw (JDict items) =
          (Crashed (ClientError TypeError), ClearScreen :: title_lines))).
Proof.
  intros Hdata. rewrite (draw_last _ _ _ Hdata).
  split_and!.
  - intros Hnone. draw_step.
    cbn [py_truthy py_contains py_getitem dict_lookup String.eqb Ascii.eqb
         Bool.eqb py_len_of py_getitem_last length rev app Z.of_nat Z.ltb
         Z.compare Pos.of_succ_nat].
    rewrite Hnone. change (0 <? Z.of_nat 1) with true. cbn. by rewrite ?app_nil_r.
  - intros stamp Hstamp Hnot. draw_step.
    cbn [py_truthy py_contains py_getitem dict_lookup String.eqb Ascii.eqb
         Bool.eqb py_len_of py_getitem_last length rev app Z.of_nat Z.ltb
         Z.compare Pos.of_succ_nat].
    rewrite Hstamp.
    change (0 <? Z.of_nat 1) with true.
    destruct stamp; cbn; try (by rewrite ?app_nil_r). by destruct (Hnot s).
  - intros text e Hstamp Htime. draw_step.
    cbn [py_truthy py_contains py_getitem dict_lookup String.eqb Ascii.eqb
         Bool.eqb py_len_of py_getitem_last length rev app Z.of_nat Z.ltb
         Z.compare Pos.of_succ_nat].
    rewrite Hstamp, Htime. change (0 <? Z.of_nat 1) with true. cbn. by rewrite ?app_nil_r.
  - intros text shown_time Hstamp Htime. split.
    + intros Hnone. draw_step.
      cbn [py_truthy py_contains py_getitem dict_lookup String.eqb Ascii.eqb
           Bool.eqb py_len_of py_getitem_last length rev app Z.of_nat Z.ltb
           Z.compare Pos.of_succ_nat].
      rewrite Hstamp, Htime, Hnone. change (0 <? Z.of_nat 1) with true. cbn. by rewrite ?app_nil_r.
    + intros value Hvalue Hnum. draw_step.
      cbn [py_truthy py_contains py_getitem dict_lookup String.eqb Ascii.eqb
           Bool.eqb py_len_of py_getitem_last length rev app Z.of_nat Z.ltb
           Z.compare Pos.of_succ_nat].
      rewrite Hstamp, Htime, Hvalue. unfold get_blood_sugar_color.
      rewrite Hnum. change (0 <? Z.of_nat 1) with true. cbn. by rewrite ?app_nil_r.
Qed.

(** *** [update_graph_data] *)

Abbreviation fetch_graph api s :=
  (get_graph_data Srv serve repr JNull (Some get_graph_data_api_version) api s).

Lemma caught_message_spec (e : exn) :
  match caught_message e with
  | Some _ => is_LibreViewAPIError e = true
  | None => is_LibreViewAPIError e = false
  end.
Proof. by destruct e. Qed.

(** X24. A refresh that fails with one of the client's own errors keeps
    the payload of the last good refresh: [graph_data] is unchanged, one
    line that starts with "Error fetching graph data: " is printed, and
    the screen is then drawn from the old payload as if nothing had
    happened.  When the failure is that no patient id was found, the line
    says so. *)
Theorem update_graph_data_keeps_last_payload
    (graph_data : json) (api : client) (s : Srv) (e : exn) :
  result_of (fetch_graph api s) = Raise e ->
  is_LibreViewAPIError e = true ->
  exists message,
    caught_message e = Some message /\
    graph_data_of (refresh graph_data api s) = graph_data /\
    written_of (refresh graph_data api s) =
      Print ("Error fetching graph data: " +:+ message)
      :: snd (draw graph_data) /\
    refresh_result (refresh graph_data api s) = fst (draw graph_data) /\
    (result_of (get_patient_id Srv serve repr api s) = Return JNull ->
     message = "No patientId available to query graph data.").
Proof.
  intros Hres Hlv. pose proof (caught_message_spec e) as Hspec.
  destruct (caught_message e) as [message|] eqn:Hmsg; [|congruence].
  exists message. unfold update_graph_data. rewrite Hres, Hmsg.
  cbn [graph_data_of written_of refresh_result]. split_and!; try reflexivity.
  intros Hnone. rewrite get_graph_data_lookup, Hnone in Hres.
  cbn in Hres. injection Hres as <-. cbn in Hmsg. by injection Hmsg.
Qed.

(** X25. A refresh that fails with any other exception, such as the
    [KeyError], [TypeError] or [AttributeError] of a body of unexpected
    shape, is not caught: [update_graph_data] raises it, nothing is written
    and the screen is not redrawn; [graph_data] is unchanged. *)
Theorem update_graph_data_lets_other_exceptions_through
    (graph_data : json) (api : client) (s : Srv) (e : exn) :
  result_of (fetch_graph api s) = Raise e ->
  is_LibreViewAPIError e = false ->
  refresh_result (refresh graph_data api s) = Crashed (ClientError e) /\
  written_of (refresh graph_data api s) = [] /\
  graph_data_of (refresh graph_data api s) = graph_data.
Proof.
  intros Hres Hlv. pose proof (caught_message_spec e) as Hspec.
  destruct (caught_message e) as [message|] eqn:Hmsg; [congruence|].
  unfold update_graph_data. rewrite Hres, Hmsg. by split_and!.
Qed.

(** X26. A refresh that fetches a payload replaces the old one for good:
    what is stored, what is written and how the refresh ends are the same
    whatever [graph_data] held before, and no error line is written. *)
Theorem update_graph_data_replaces_payload
    (old other : json) (api : client) (s : Srv) (data : json) :
  result_of (fetch_graph api s) = Return data ->
  refresh old api s = refresh other api s /\
  graph_data_of (refresh old api s) = data /\
  written_of (refresh old api s) = snd (draw data).
Proof.
  intros Hres. unfold update_graph_data. rewrite Hres. by split_and!.
Qed.

(** X27. Whatever happens, a refresh leaves a client with the
    credentials and settings it had, makes the calls of one
    [get_graph_data] without patient id, the first of which is the GET on
    the connections URL, and so goes through [session.request] at most four
    times and logs in at most twice. *)
Theorem update_graph_data_session (graph_data : json) (api : client) (s : Srv) :
  same_config api (api_of (refresh graph_data api s)) /\
  requests_of (refresh graph_data api s) = calls_of (fetch_graph api s) /\
  (exists k, hd_error (requests_of (refresh graph_data api s)) = Some k /\
     via k = SessionRequest /\ http_method k = "GET" /\
     url k = connections_url) /\
  (count_via SessionRequest (requests_of (refresh graph_data api s)) <= 4)%nat /\
  (count_via SessionPost (requests_of (refresh graph_data api s)) <= 2)%nat.
Proof.
  assert (Hreq : requests_of (refresh graph_data api s)
                 = calls_of (fetch_graph api s)).
  { unfold update_graph_data.
    destruct (result_of (fetch_graph api s)) as [data|e]; [reflexivity|].
    destruct (caught_message e); reflexivity. }
  assert (Hapi : api_of (refresh graph_data api s)
                 = client_of (fetch_graph api s)).
  { unfold update_graph_data.
    destruct (result_of (fetch_graph api s)) as [data|e]; [reflexivity|].
    destruct (caught_message e); reflexivity. }
  rewrite Hreq, Hapi.
  pose proof (get_graph_data_calls_bounded Srv serve repr JNull
                (Some get_graph_data_api_version) api s)
    as (Hr & Hp & _ & Hfirst).
  split_and!.
  - apply get_graph_data_config.
  - reflexivity.
  - by apply Hfirst.
  - apply Hr.
  - exact Hp.
Qed.

(** *** Start-up *)

(** X28. The creation of the client at start-up is not guarded: when it
    raises, also with one of the client's own errors such as
    [LibreViewAuthenticationError], the script stops before anything is
    written and before any refresh.  When it succeeds the script goes on
    with a first refresh on an empty [graph_data]; if that refresh fails
    with one of the client's errors, the error line and then the waiting
    screen are written. *)
Theorem startup_outcomes (EMAIL PASSWORD : string) (s : Srv) :
  let made := init Srv serve repr EMAIL PASSWORD init_default_version
                init_product init_timeout s in
  let started :=
    startup Srv serve repr figlet_format splitlines center terminal_columns
      chicago_time EMAIL PASSWORD s in
  (forall e, result_of made = Raise e ->
     refresh_result started = Crashed (ClientError e) /\
     written_of started = [] /\
     requests_of started = calls_of made) /\
  (result_of made = Return tt ->
     let first := refresh JNull (client_of made) (server_of made) in
     refresh_result started = refresh_result first /\
     graph_data_of started = graph_data_of first /\
     written_of started = written_of first /\
     requests_of started = (calls_of made ++ requests_of first)%list /\
     (forall e,
        result_of (fetch_graph (client_of made) (server_of made)) = Raise e ->
        is_LibreViewAPIError e = true ->
        exists message,
          caught_message e = Some message /\
          graph_data_of started = JNull /\
          written_of started =
            (Print ("Error fetching graph data: " +:+ message)
             :: ClearScreen :: title_lines ++
             [Print (newline +:+
                     center
                       "Waiting for the applicaiton to fetch updated results ..."
                       width
                     +:+ newline)])%list)).
Proof.
  intros made started. subst made started. unfold startup. split.
  - intros e He. rewrite He. by split_and!.
  - intros Hok. rewrite Hok. cbv zeta.
    cbn [refresh_result graph_data_of written_of requests_of].
    split_and!; try reflexivity.
    intros e He Hlv. pose proof (caught_message_spec e) as Hspec.
    destruct (caught_message e) as [message|] eqn:Hmsg; [|congruence].
    exists message. split; [reflexivity|].
    unfold update_graph_data. rewrite He, Hmsg.
    cbn [graph_data_of written_of]. split; reflexivity.
Qed.

End ConsoleProperties.


(** ** Concrete runs *)

Lemma get_headers_conditional_entries_witness :
  exists h,
    get_headers (list outcome) None true true stale_client []
      = Ran (Return h) stale_client [] [] /\
    h !! "Authorization" = Some "Bearer stale-token" /\
    h !! "Account-Id" = Some "old-hash".
Proof.
  destruct (get_headers_conditional_entries (list outcome) stale_client []
              None true true)
    as (h & Hrun & _ & _ & _ & Hauth & _ & Hacc).
  exists h. split; [exact Hrun|]. split.
  - apply Hauth; [reflexivity|reflexivity|discriminate].
  - apply Hacc; [reflexivity|reflexivity|discriminate].
Defined.

Lemma login_401_raises_and_keeps_token_witness :
  result_of (login (list outcome) scripted repr_elided stale_client
               expired_then_refused)
    = Raise (LibreViewAuthenticationError "Invalid credentials.") /\
  token (client_of (login (list outcome) scripted repr_elided stale_client
                      expired_then_refused)) = Some "stale-token".
Proof.
  destruct (login_401_raises_and_keeps_token (list outcome) scripted
              repr_elided stale_client expired_then_refused _ _ _
              eq_refl eq_refl eq_refl) as (Hres & _ & Htok).
  split; [exact Hres|exact Htok].
Defined.

(** C2, as stated, fails: the endpoint answers 401 with a body that is
    not JSON, and [login] raises [LibreViewResponseError], which is not an
    authentication error. *)
Lemma login_401_html_is_not_authentication_error :
  let out := login (list outcome) scripted repr_elided stale_client
               [answers_html 401] in
  result_of out = Raise (LibreViewResponseError "Login response was not JSON.") /\
  (forall msg, result_of out <> Raise (LibreViewAuthenticationError msg)).
Proof. split; [reflexivity|]. intros msg. cbv. discriminate. Qed.

Lemma request_relogin_and_retry_once_witness :
  let out := request (list outcome) scripted repr_elided "GET" connections_url
               None no_kwargs stale_client expired_twice in
  count_via SessionRequest (calls_of out) = 2%nat /\
  count_via SessionPost (calls_of out) = 1%nat /\
  result_of out =
    Return {| status_code := 401;
              json_body := Some (JDict [("message", JStr "expired")]) |}.
Proof.
  intros out.
  destruct (request_relogin_and_retry_once (list outcome) scripted repr_elided
              "GET" connections_url None no_kwargs stale_client expired_twice)
    as (_ & _ & H).
  destruct (H _ _ _ eq_refl eq_refl eq_refl) as (Hpost & k2 & _ & _ & _ & _ & Hn & _).
  split; [exact Hn|]. split; [exact Hpost|]. reflexivity.
Defined.

(** C1, as stated, fails: the first answer is a 401 and the login that
    follows is refused.  [request] raises what [login] raised and the
    request is not sent again. *)
Lemma request_not_reissued_when_relogin_fails :
  let out := request (list outcome) scripted repr_elided "GET" connections_url
               None no_kwargs stale_client expired_then_refused in
  (exists k1 r1 s1,
     hd_error (calls_of out) = Some k1 /\
     scripted expired_then_refused k1 = (Responded r1, s1) /\
     status_code r1 = 401) /\
  result_of out = Raise (LibreViewAuthenticationError "Invalid credentials.") /\
  count_via SessionRequest (calls_of out) = 1%nat /\
  count_via SessionRequest (calls_of out) <> 2%nat.
Proof.
  split; [do 3 eexists; split_and!; reflexivity|].
  split; [reflexivity|]. split; [reflexivity|]. cbv. discriminate.
Qed.

(** C3 at a failing input.  The caller passes the header [X-Trace]; the
    first attempt carries it, the attempt made after the 401 and the new
    login does not. *)
Example request_retry_omits_caller_headers :
  let out := request (list outcome) scripted repr_elided "GET" connections_url
               None traced stale_client expired_then_ok in
  exists k1 k2 k3 k4,
    calls_of out = [k1; k2; k3; k4] /\
    via k1 = SessionRequest /\ via k4 = SessionRequest /\
    url k4 = url k1 /\
    headers k1 !! "X-Trace" = Some "abc" /\
    headers k4 !! "X-Trace" = None /\
    result_of out =
      Return {| status_code := 200;
                json_body := Some (JDict [("data", JList [])]) |}.
Proof. do 4 eexists. split_and!; reflexivity. Qed.



Lemma login_and_setup_keeps_token_when_fetch_raises_witness :
  let out := login_and_setup (list outcome) scripted repr_elided stale_client
               [answers 200 (login_body (JStr "fresh-token")); TimedOut] in
  result_of out = Raise (LibreViewTimeoutError "Account ID request timed out.") /\
  token (client_of out) = Some "fresh-token" /\
  account_id (client_of out) = Some "old-hash".
Proof.
  intros out.
  destruct (login_and_setup_keeps_token_when_fetch_raises (list outcome)
              scripted repr_elided stale_client
              [answers 200 (login_body (JStr "fresh-token")); TimedOut]
              (LibreViewTimeoutError "Account ID request timed out.")
              eq_refl eq_refl) as (Hres & Htok & _ & Hacc).
  split; [exact Hres|]. split; [exact Htok|exact Hacc].
Defined.

Lemma get_graph_data_default_version_is_literal_witness :
  let out := get_graph_data (list outcome) scripted repr_elided (JStr "p-1")
               (Some get_graph_data_api_version) stale_client
               [answers 200 (JDict [("data", JDict [])])] in
  exists k, hd_error (calls_of out) = Some k /\
    url k = "https://api.libreview.io/llu/connections/p-1/graph" /\
    headers k !! "version" = Some "4.16.0".
Proof.
  intros out.
  destruct (get_graph_data_default_version_is_literal (list outcome) scripted
              repr_elided (JStr "p-1") stale_client
              [answers 200 (JDict [("data", JDict [])])]) as (_ & H).
  destruct (H eq_refl) as (k & Hhd & _ & _ & Hurl & Hver).
  exists k. split; [exact Hhd|]. split; [exact Hurl|exact Hver].
Defined.

(** C7, as stated, fails: a client created with default version "4.20.0"
    sends the graph GET with version "4.16.0". *)
Lemma graph_call_ignores_configured_version :
  let made := init (list outcome) scripted repr_elided "user@example.org"
                "secret" "4.20.0" init_product init_timeout
                [answers 200 (login_body (JStr "fresh-token"));
                 answers 200 (account_body (JStr "12345"))] in
  let out := get_graph_data (list outcome) scripted repr_elided (JStr "p-1")
               (Some get_graph_data_api_version) (client_of made)
               [answers 200 (JDict [("data", JDict [])])] in
  result_of made = Return tt /\
  default_version (client_of made) = "4.20.0" /\
  exists k,
    calls_of out = [k] /\
    url k = "https://api.libreview.io/llu/connections/p-1/graph" /\
    headers k !! "version" = Some "4.16.0" /\
    headers k !! "version" <> Some (default_version (client_of made)).
Proof.
  split; [reflexivity|]. split; [reflexivity|].
  eexists. split_and!; try reflexivity.
  intros H.
  apply (f_equal (fun o => match o with
                           | Some v => String.eqb v "4.16.0"
                           | None => false
                           end)) in H.
  vm_compute in H. discriminate H.
Qed.





Lemma nested_fields_raise_KeyError_witness :
  result_of (login (list outcome) scripted repr_elided stale_client
               [answers 200 (JDict [("data", JDict [])])])
    = Raise (KeyError "authTicket") /\
  result_of (fetch_and_hash_account_id (list outcome) scripted repr_elided
               stale_client [answers 200 (JDict [("data", JDict [])])])
    = Raise (KeyError "user") /\
  is_LibreViewAPIError (KeyError "authTicket") = false.
Proof.
  split; [|split].
  - destruct (nested_fields_raise_KeyError (list outcome) scripted repr_elided
                stale_client [answers 200 (JDict [("data", JDict [])])] []
                {| via := SessionPost; http_method := "POST";
                   url := login_url stale_client;
                   headers := <["Content-Type" := "application/json"]>
                                (header_fields stale_client
                                   (Some (default_version stale_client))
                                   false false);
                   json_payload :=
                     Some (JDict [("email", JStr (email stale_client));
                                  ("password", JStr (password stale_client))]);
                   verify := false; call_timeout := timeout stale_client;
                   extra_kwargs := [] |}
                {| status_code := 200;
                   json_body := Some (JDict [("data", JDict [])]) |}
                (JDict [("data", JDict [])]) []
                eq_refl eq_refl eq_refl eq_refl) as (H & _ & _).
    destruct (H eq_refl) as (Hk & _). exact (Hk eq_refl).
  - destruct (nested_fields_raise_KeyError (list outcome) scripted repr_elided
                stale_client [answers 200 (JDict [("data", JDict [])])] []
                {| via := SessionGet; http_method := "GET";
                   url := account_url stale_client;
                   headers := header_fields stale_client (Some "4.7") true false;
                   json_payload := None;
                   verify := false; call_timeout := timeout stale_client;
                   extra_kwargs := [] |}
                {| status_code := 200;
                   json_body := Some (JDict [("data", JDict [])]) |}
                (JDict [("data", JDict [])]) []
                eq_refl eq_refl eq_refl eq_refl) as (_ & H & _).
    destruct (H eq_refl) as (Hk & _). exact (Hk eq_refl).
  - reflexivity.
Defined.

(** ** Concrete runs of the further properties *)

Lemma login_stores_token_witness :
  login (list outcome) scripted repr_elided stale_client
    [answers 200 (login_body (JStr "fresh-token"))]
  = Ran (Return tt) (set_token (Some "fresh-token") stale_client) []
        (calls_of (login (list outcome) scripted repr_elided stale_client
                     [answers 200 (login_body (JStr "fresh-token"))])).
Proof.
  exact (login_stores_token (list outcome) scripted repr_elided stale_client
           [answers 200 (login_body (JStr "fresh-token"))] [] _ _ _ _ _ _
           eq_refl eq_refl eq_refl eq_refl eq_refl eq_refl eq_refl).
Defined.

Lemma login_failures_witness :
  result_of (login (list outcome) scripted repr_elided stale_client [TimedOut])
    = Raise (LibreViewTimeoutError "Login request timed out.") /\
  login (list outcome) scripted repr_elided stale_client
    [answers 503 (JDict [("message", JStr "down")])]
  = Ran (Raise (LibreViewAPIError "Failed to log in: ...")) stale_client []
        (calls_of (login (list outcome) scripted repr_elided stale_client
                     [answers 503 (JDict [("message", JStr "down")])])).
Proof.
  split.
  - destruct (login_failures (list outcome) scripted repr_elided stale_client
                [TimedOut] [] _ TimedOut eq_refl eq_refl) as (H & _).
    rewrite (H eq_refl). reflexivity.
  - destruct (login_failures (list outcome) scripted repr_elided stale_client
                [answers 503 (JDict [("message", JStr "down")])] [] _ _
                eq_refl eq_refl) as (_ & _ & _ & H & _).
    refine (H _ _ eq_refl eq_refl _ _); discriminate.
Defined.

Lemma fetch_failures_witness :
  fetch_and_hash_account_id (list outcome) scripted repr_elided stale_client
    [answers 401 (JDict [("message", JStr "expired")])]
  = Ran (Raise (LibreViewAPIError "Failed to get account data: ..."))
        stale_client []
        (calls_of (fetch_and_hash_account_id (list outcome) scripted
                     repr_elided stale_client
                     [answers 401 (JDict [("message", JStr "expired")])])).
Proof.
  destruct (fetch_failures (list outcome) scripted repr_elided stale_client
              [answers 401 (JDict [("message", JStr "expired")])] [] _ _
              eq_refl eq_refl) as (_ & _ & _ & H).
  refine (H _ _ eq_refl eq_refl _). discriminate.
Defined.

Lemma login_and_setup_refreshes_both_witness :
  let out := login_and_setup (list outcome) scripted repr_elided stale_client
               [answers 200 (login_body (JStr "fresh-token"));
                answers 200 (account_body (JInt 12345))] in
  result_of out = Return tt /\
  token (client_of out) = Some "fresh-token" /\
  account_id (client_of out) =
    Some "5994471abb01112afcc18159f6cc74b4f511b99806da59b3caf5a9c173cacfc5" /\
  exists k1 k2, calls_of out = [k1; k2] /\
    headers k2 !! "Authorization" = Some "Bearer fresh-token".
Proof.
  intros out.
  destruct (login_and_setup_refreshes_both (list outcome) scripted repr_elided
              stale_client
              [answers 200 (login_body (JStr "fresh-token"));
               answers 200 (account_body (JInt 12345))] eq_refl eq_refl)
    as (Hres & t & a & k1 & k2 & Hc & Hcalls & _ & _ & Hauth).
  split; [exact Hres|]. split; [reflexivity|]. split; [vm_compute; reflexivity|].
  exists k1, k2. split; [exact Hcalls|].
  assert (Ht : t = "fresh-token").
  { assert (Htok : token (client_of out) = Some t)
      by (subst out; rewrite Hc; reflexivity).
    vm_compute in Htok. by injection Htok as <-. }
  rewrite Hauth, Ht. reflexivity.
Defined.

Lemma request_returns_other_statuses_witness :
  request (list outcome) scripted repr_elided "GET" connections_url None
    no_kwargs stale_client [answers 500 (JDict [("message", JStr "down")])]
  = Ran (Return {| status_code := 500;
                   json_body := Some (JDict [("message", JStr "down")]) |})
        stale_client []
        (calls_of (request (list outcome) scripted repr_elided "GET"
                     connections_url None no_kwargs stale_client
                     [answers 500 (JDict [("message", JStr "down")])])).
Proof.
  refine (request_returns_other_statuses (list outcome) scripted repr_elided
            "GET" connections_url None no_kwargs stale_client
            [answers 500 (JDict [("message", JStr "down")])] [] _ _
            eq_refl eq_refl _).
  discriminate.
Defined.

Lemma request_first_attempt_failures_witness :
  result_of (request (list outcome) scripted repr_elided "GET" connections_url
               None no_kwargs stale_client [TimedOut])
  = Raise (LibreViewTimeoutError
             "Request to https://api.libreview.io/llu/connections timed out.") /\
  result_of (request (list outcome) scripted repr_elided "GET" connections_url
               None no_kwargs stale_client [Failed "connection reset"])
  = Raise (LibreViewAPIError
             "Unexpected error during request: connection reset").
Proof.
  split.
  - destruct (request_first_attempt_failures (list outcome) scripted
                repr_elided "GET" connections_url None no_kwargs stale_client
                [TimedOut] [] _ TimedOut eq_refl eq_refl) as (H & _).
    rewrite (H eq_refl). reflexivity.
  - destruct (request_first_attempt_failures (list outcome) scripted
                repr_elided "GET" connections_url None no_kwargs stale_client
                [Failed "connection reset"] [] _ _ eq_refl eq_refl) as (_ & H).
    rewrite (H _ eq_refl). reflexivity.
Defined.

Lemma request_retry_uses_refreshed_client_witness :
  let out := request (list outcome) scripted repr_elided "GET" connections_url
               None traced stale_client expired_then_ok in
  token (client_of out) = Some "fresh-token" /\
  exists k2, List.last (calls_of out) k2 = k2 /\
    headers k2 !! "Authorization" = Some "Bearer fresh-token" /\
    headers k2 !! "Account-Id" =
      Some "5994471abb01112afcc18159f6cc74b4f511b99806da59b3caf5a9c173cacfc5".
Proof.
  intros out.
  destruct (request_retry_uses_refreshed_client (list outcome) scripted
              repr_elided "GET" connections_url None traced stale_client
              expired_then_ok _ _ _ eq_refl eq_refl eq_refl eq_refl)
    as (Hc & k2 & Hcalls & _ & Hauth & Hacc & _).
  split; [subst out; rewrite Hc; reflexivity|].
  exists k2. split; [subst out; rewrite Hcalls; reflexivity|].
  split; [rewrite Hauth; reflexivity|rewrite Hacc; vm_compute; reflexivity].
Defined.

Lemma get_patient_id_first_connection_witness :
  result_of (get_patient_id (list outcome) scripted repr_elided stale_client
               [answers 200 connections_body]) = Return (JStr "p-1").
Proof.
  exact (get_patient_id_first_connection (list outcome) scripted repr_elided
           stale_client [answers 200 connections_body]
           {| status_code := 200; json_body := Some connections_body |}
           [("data", JList [JDict [("patientId", JStr "p-1")];
                            JDict [("patientId", JStr "p-2")]])]
           [("patientId", JStr "p-1")] [JDict [("patientId", JStr "p-2")]]
           (JStr "p-1") eq_refl eq_refl eq_refl eq_refl).
Defined.

Lemma get_graph_data_version_witness :
  let out := get_graph_data (list outcome) scripted repr_elided (JStr "p-1")
               None stale_client [answers 200 (JDict [("data", JDict [])])] in
  exists k, calls_of out = [k] /\ headers k !! "version" = Some "4.20.0".
Proof.
  intros out.
  exists (hd (Call SessionGet "" "" ∅ None false 0 []) (calls_of out)).
  split; [reflexivity|].
  refine (proj2 (get_graph_data_version (list outcome) scripted repr_elided
                   (JStr "p-1") None stale_client
                   [answers 200 (JDict [("data", JDict [])])] _ _ _)
            (or_introl eq_refl)).
  - left. reflexivity.
  - reflexivity.
Defined.

Lemma get_graph_data_looks_up_then_requests_witness :
  let out := get_graph_data (list outcome) scripted repr_elided JNull
               (Some get_graph_data_api_version) fresh_client refresh_ok in
  exists k1 k2, calls_of out = [k1; k2] /\
    url k1 = "https://api.libreview.io/llu/connections" /\
    url k2 = "https://api.libreview.io/llu/connections/p-1/graph".
Proof.
  intros out.
  destruct (get_graph_data_looks_up_then_requests (list outcome) scripted
              repr_elided (Some get_graph_data_api_version) fresh_client
              refresh_ok (JStr "p-1") eq_refl eq_refl) as (Hcalls & _).
  subst out. rewrite Hcalls. do 2 eexists. split_and!; reflexivity.
Defined.

Lemma fetch_stores_64_hex_digits_witness :
  exists a,
    account_id (client_of (fetch_and_hash_account_id (list outcome) scripted
                             repr_elided stale_client
                             [answers 200 (account_body (JStr "12345"))]))
      = Some a /\
    String.length a = 64%nat /\ all_lower_hex a = true.
Proof.
  destruct (fetch_stores_64_hex_digits (list outcome) scripted repr_elided
              stale_client [answers 200 (account_body (JStr "12345"))] eq_refl)
    as (a & Ha & Hlen & Hhex & _).
  exists a. split; [exact Ha|]. split; [exact Hlen|exact Hhex].
Defined.

Lemma blood_sugar_color_bands_witness :
  get_blood_sugar_color (JInt 205) = Return RED /\
  get_blood_sugar_color (JInt 200) = Return YELLOW /\
  get_blood_sugar_color (JInt 180) = Return GREEN /\
  get_blood_sugar_color (JFloat 361 (-1)) = Return YELLOW /\
  get_blood_sugar_color (JInt 75) = Return YELLOW /\
  get_blood_sugar_color (JInt 69) = Return RED.
Proof.
  split_and!.
  - apply (blood_sugar_color_bands (JInt 205) 205 0 eq_refl); cbv; intuition discriminate.
  - apply (blood_sugar_color_bands (JInt 200) 200 0 eq_refl); cbv; intuition discriminate.
  - apply (blood_sugar_color_bands (JInt 180) 180 0 eq_refl); cbv; intuition discriminate.
  - apply (blood_sugar_color_bands (JFloat 361 (-1)) 361 (-1) eq_refl); cbv; intuition discriminate.
  - apply (blood_sugar_color_bands (JInt 75) 75 0 eq_refl); cbv; intuition discriminate.
  - apply (blood_sugar_color_bands (JInt 69) 69 0 eq_refl); cbv; intuition discriminate.
Defined.

Lemma print_blood_sugar_waits_witness :
  print_blood_sugar repr_elided plain_figlet one_line uncentered None
    sample_clock JNull
  = (Done tt,
     [ClearScreen; Print "Blood Sugar Console";
      Print (newline +:+
             "Waiting for the applicaiton to fetch updated results ..."
             +:+ newline)]).
Proof.
  exact (print_blood_sugar_waits repr_elided plain_figlet one_line uncentered
           None sample_clock JNull (or_introl eq_refl)).
Defined.

Lemma print_blood_sugar_reads_last_witness :
  print_blood_sugar repr_elided plain_figlet one_line uncentered None
    sample_clock sample_payload
  = print_blood_sugar repr_elided plain_figlet one_line uncentered None
      sample_clock (JDict [("graphData", JList [JDict last_reading])]).
Proof.
  exact (print_blood_sugar_reads_last repr_elided plain_figlet one_line
           uncentered None sample_clock sample_items [earlier_reading]
           (JDict last_reading) eq_refl).
Defined.

Lemma print_blood_sugar_draws_reading_witness :
  print_blood_sugar repr_elided plain_figlet one_line uncentered (Some 120)
    sample_clock sample_payload
  = (Done tt,
     [ClearScreen; Print "Blood Sugar Console"; Print "";
      Print (fore_code RED +:+ "205" +:+ reset_all);
      Print "This reading was captured at: 2026-11-04 12:15:00 PM CST."]).
Proof.
  exact (print_blood_sugar_draws_reading repr_elided plain_figlet one_line
           uncentered (Some 120) sample_clock sample_items last_reading
           [earlier_reading] "11/04/2026 06:15:00 PM"
           "2026-11-04 12:15:00 PM CST" (JInt 205) RED
           eq_refl eq_refl eq_refl eq_refl eq_refl).
Defined.

Lemma print_blood_sugar_crashes_witness :
  print_blood_sugar repr_elided plain_figlet one_line uncentered None
    sample_clock broken_payload
  = (Crashed (ClientError (KeyError "Value")),
     [ClearScreen; Print "Blood Sugar Console"]).
Proof.
  destruct (print_blood_sugar_crashes repr_elided plain_figlet one_line
              uncentered None sample_clock broken_items broken_reading []
              eq_refl) as (_ & _ & _ & H).
  destruct (H "11/04/2026 06:15:00 PM" "2026-11-04 12:15:00 PM CST"
              eq_refl eq_refl) as (Hvalue & _).
  exact (Hvalue eq_refl).
Defined.

Lemma update_graph_data_keeps_last_payload_witness :
  let out := update_graph_data (list outcome) scripted repr_elided plain_figlet
               one_line uncentered None sample_clock sample_payload
               fresh_client refresh_no_connection in
  graph_data_of out = sample_payload /\
  written_of out =
    [Print "Error fetching graph data: No patientId available to query graph data.";
     ClearScreen; Print "Blood Sugar Console"; Print "";
     Print (fore_code RED +:+ "205" +:+ reset_all);
     Print "This reading was captured at: 2026-11-04 12:15:00 PM CST."].
Proof.
  intros out.
  destruct (update_graph_data_keeps_last_payload (list outcome) scripted
              repr_elided plain_figlet one_line uncentered None sample_clock
              sample_payload fresh_client refresh_no_connection _
              eq_refl eq_refl)
    as (message & _ & Hdata & Hwritten & _ & Hmsg).
  split; [exact Hdata|]. subst out. rewrite Hwritten, (Hmsg eq_refl).
  reflexivity.
Defined.

Lemma update_graph_data_lets_other_exceptions_through_witness :
  let out := update_graph_data (list outcome) scripted repr_elided plain_figlet
               one_line uncentered None sample_clock sample_payload
               fresh_client refresh_bad_login in
  refresh_result out = Crashed (ClientError (KeyError "authTicket")) /\
  written_of out = [] /\ graph_data_of out = sample_payload.
Proof.
  exact (update_graph_data_lets_other_exceptions_through (list outcome)
           scripted repr_elided plain_figlet one_line uncentered None
           sample_clock sample_payload fresh_client refresh_bad_login
           (KeyError "authTicket") eq_refl eq_refl).
Defined.

Lemma update_graph_data_replaces_payload_witness :
  let out := update_graph_data (list outcome) scripted repr_elided plain_figlet
               one_line uncentered None sample_clock broken_payload
               fresh_client refresh_ok in
  graph_data_of out = sample_payload /\
  written_of out =
    [ClearScreen; Print "Blood Sugar Console"; Print "";
     Print (fore_code RED +:+ "205" +:+ reset_all);
     Print "This reading was captured at: 2026-11-04 12:15:00 PM CST."].
Proof.
  intros out.
  destruct (update_graph_data_replaces_payload (list outcome) scripted
              repr_elided plain_figlet one_line uncentered None sample_clock
              broken_payload JNull fresh_client refresh_ok sample_payload
              eq_refl) as (_ & Hdata & Hwritten).
  split; [exact Hdata|]. subst out. rewrite Hwritten. reflexivity.
Defined.

Lemma get_patient_id_failures_witness :
  result_of (get_patient_id (list outcome) scripted repr_elided stale_client
               [answers 200 (JList [])]) = Raise AttributeError /\
  result_of (get_patient_id (list outcome) scripted repr_elided stale_client
               [answers 200 (JDict [("data", JList [JInt 7])])])
    = Raise TypeError /\
  result_of (get_patient_id (list outcome) scripted repr_elided stale_client
               [answers_html 502])
    = Raise (LibreViewResponseError "Connections response was not JSON.").
Proof.
  split; [|split].
  - destruct (get_patient_id_failures (list outcome) scripted repr_elided
                stale_client [answers 200 (JList [])]) as (_ & H & _).
    destruct (H _ eq_refl) as (_ & Hattr & _).
    apply (Hattr (JList []) eq_refl). discriminate.
  - destruct (get_patient_id_failures (list outcome) scripted repr_elided
                stale_client [answers 200 (JDict [("data", JList [JInt 7])])])
      as (_ & H & _).
    destruct (H _ eq_refl) as (_ & _ & Htype).
    exact (Htype [("data", JList [JInt 7])] (JInt 7) [] eq_refl eq_refl eq_refl).
  - destruct (get_patient_id_failures (list outcome) scripted repr_elided
                stale_client [answers_html 502]) as (_ & H & _).
    destruct (H _ eq_refl) as (Hjson & _).
    exact (Hjson eq_refl).
Defined.

Lemma get_graph_data_failures_witness :
  result_of (get_graph_data (list outcome) scripted repr_elided JNull
               (Some get_graph_data_api_version) stale_client [TimedOut])
    = Raise (LibreViewTimeoutError
               "Request to https://api.libreview.io/llu/connections timed out.") /\
  result_of (get_graph_data (list outcome) scripted repr_elided (JStr "p-1")
               (Some get_graph_data_api_version) stale_client
               [answers_html 502])
    = Raise (LibreViewResponseError "Graph data response was not JSON.").
Proof.
  split.
  - destruct (get_graph_data_failures (list outcome) scripted repr_elided
                (Some get_graph_data_api_version) stale_client [TimedOut])
      as (H & _).
    exact (proj1 (H _ eq_refl)).
  - destruct (get_graph_data_failures (list outcome) scripted repr_elided
                (Some get_graph_data_api_version) stale_client
                [answers_html 502]) as (_ & H).
    destruct (H (JStr "p-1") eq_refl) as (_ & Hr).
    destruct (Hr _ eq_refl) as (Hjson & _).
    exact (Hjson eq_refl).
Defined.

Lemma startup_outcomes_witness :
  let refused :=
    startup (list outcome) scripted repr_elided plain_figlet one_line
      uncentered None sample_clock "user@example.org" "wrong"
      [answers 401 (JDict [("message", JStr "bad credentials")])] in
  refresh_result refused =
    Crashed (ClientError (LibreViewAuthenticationError "Invalid credentials.")) /\
  written_of refused = [].
Proof.
  intros refused.
  destruct (startup_outcomes (list outcome) scripted repr_elided plain_figlet
              one_line uncentered None sample_clock "user@example.org" "wrong"
              [answers 401 (JDict [("message", JStr "bad credentials")])])
    as (H & _).
  destruct (H _ eq_refl) as (Hres & Hw & _).
  split; [exact Hres|exact Hw].
Defined.
